(** * SVR client library: sources (lib/source.c)

    A shallow embedding of the client-side source API of SVR
    ([SVR_Source_new], [SVR_Source_setEncoding],
    [SVR_Source_setFrameProperties], [SVR_Source_sendFrame], ...) and the
    properties of it that the design document states.

    The C functions talk to three collaborators whose code lives outside
    lib/source.c: the message layer ([SVR_Comm_sendMessage],
    [SVR_Comm_parseResponse]), the option-string parser and the codec
    registry with its encoders.  They are kept abstract, as type classes;
    a small concrete instance at the end of the definitions is used to run
    the model on examples. *)

From Stdlib Require Import ZArith Ascii String Strings.Byte List Lia.
From Stdlib Require Import DecimalString DecimalPos DecimalZ.
From stdpp Require Import base option list strings gmap.

Open Scope Z_scope.

(** ** Data *)

(** [SVR_FrameProperties]: the four [int] fields, by value. *)
Record SVR_FrameProperties := mkFrameProperties {
  width : Z;
  height : Z;
  depth : Z;
  channels : Z
}.

(** The fields of OpenCV's [IplImage] that source.c reads, and the pixel
    data an encoder consumes. *)
Module Ipl.
Record Image := mkImage {
  width : Z;
  height : Z;
  depth : Z;
  nChannels : Z;
  imageData : list Byte.byte
}.
End Ipl.
Abbreviation IplImage := Ipl.Image.

(** [SVR_Message]: the text components and the payload.  The C struct keeps
    [payload] and [payload_size] apart; here the payload is the list of the
    [payload_size] bytes that are sent. *)
Record SVR_Message := mkMessage {
  components : list string;
  payload : list Byte.byte
}.

Definition payload_size (m : SVR_Message) : Z := Z.of_nat (length (payload m)).

(** A parsed option string is a [Dictionary] from keys to values. *)
Abbreviation Dictionary := (gmap string string).

(** ** Collaborators *)

(** Error codes of svr.h.  Only [SVR_SUCCESS] has a documented value. *)
Class ErrorCodes := {
  SVR_PARSEERROR : Z;
  SVR_NOSUCHENCODING : Z;
  SVR_INVALIDSTATE : Z;
  SVR_INVALIDARGUMENT : Z
}.

(** Modelled from the spec: the macro [SVR_SUCCESS] of svr.h, which is not
    part of lib/source.c; error codes are signed integers and 0 is success. *)
Definition SVR_SUCCESS : Z := 0.

(** The option-string parser, the codec registry and the encoder engine.
    [SVR_Encoder_readData e cap] returns the bytes it wrote into the
    caller's buffer (their number is the C return value). *)
Class Codecs := {
  SVR_Encoding : Type;
  SVR_Encoder : Type;
  SVR_parseOptionString : string -> option Dictionary;
  SVR_Encoding_getByName : option string -> option SVR_Encoding;
  SVR_Encoder_new :
    SVR_Encoding -> option Dictionary -> SVR_FrameProperties -> SVR_Encoder;
  SVR_Encoder_encode : SVR_Encoder -> IplImage -> SVR_Encoder;
  SVR_Encoder_dataReady : SVR_Encoder -> Z;
  SVR_Encoder_readData : SVR_Encoder -> Z -> list Byte.byte * SVR_Encoder
}.

Section Client.

Context {EC : ErrorCodes} {CD : Codecs}.

(** What the library does to the outside world, in program order: messages
    handed to the message layer and calls into the encoder. *)
Inductive Event :=
| Sent (m : SVR_Message) (expect_response : bool)
| EncoderNew (e : SVR_Encoding) (o : option Dictionary) (p : SVR_FrameProperties)
| Encode (frame : IplImage)
| ReadData (cap : Z) (chunk : list Byte.byte).

Definition Trace := list Event.

(** The message layer: the peer answers a request knowing everything that
    happened before it, and [SVR_Comm_parseResponse] extracts the status. *)
Class Comm := {
  peer : Trace -> SVR_Message -> SVR_Message;
  SVR_Comm_parseResponse : option SVR_Message -> Z
}.

Context {CM : Comm}.

(** [SVR_Source] (the payload buffer itself is scratch space for
    [SVR_Encoder_readData]; only its size is kept). *)
Record SVR_Source := mkSource {
  name : string;
  encoding : option SVR_Encoding;
  encoding_options : option Dictionary;
  encoder : option SVR_Encoder;
  frame_properties : option SVR_FrameProperties;
  payload_buffer_size : Z
}.

Definition set_encoding_fields (s : SVR_Source) (e : SVR_Encoding) (o : Dictionary) :=
  mkSource (name s) (Some e) (Some o) (encoder s) (frame_properties s)
           (payload_buffer_size s).

Definition set_encoder (s : SVR_Source) (e : option SVR_Encoder) :=
  mkSource (name s) (encoding s) (encoding_options s) e (frame_properties s)
           (payload_buffer_size s).

Definition set_frame_properties (s : SVR_Source) (p : SVR_FrameProperties) :=
  mkSource (name s) (encoding s) (encoding_options s) (encoder s) (Some p)
           (payload_buffer_size s).

(** ** The monad: a computation reads and extends the trace *)

Definition IO (A : Type) : Type := Trace -> A * Trace.

Definition ret {A} (a : A) : IO A := fun t => (a, t).

Definition bind {A B} (m : IO A) (k : A -> IO B) : IO B :=
  fun t => let (a, t') := m t in k a t'.

Notation "'do' x <- m ; k" := (bind m (fun x => k))
  (at level 10, x pattern, m at level 100, k at level 200).

Definition emit (e : Event) : IO unit := fun t => (tt, t ++ [e]).

(** Modelled from the spec: [SVR_Comm_sendMessage] of the message layer,
    which is not part of lib/source.c.  The message is handed over; with
    [expect_response] the caller blocks for the peer's response (a synthetic
    failure response if the connection fails), otherwise nothing comes
    back. *)
Definition SVR_Comm_sendMessage (m : SVR_Message) (expect_response : bool)
  : IO (option SVR_Message) :=
  fun t => (if expect_response then Some (peer t m) else None,
            t ++ [Sent m expect_response]).

(** The request idiom of source.c: send, expect a response, parse it. *)
Definition request (m : SVR_Message) : IO Z :=
  do response <- SVR_Comm_sendMessage m true;
  ret (SVR_Comm_parseResponse response).

(** [printf]'s [%d]. *)
Definition fmt_d (z : Z) : string := NilZero.string_of_int (Z.to_int z).

(** ** The functions of source.c *)

Definition SVR_Source_setEncoding (source : SVR_Source) (encoding_descriptor : string)
  : IO (Z * SVR_Source) :=
  match SVR_parseOptionString encoding_descriptor with
  | None => ret (SVR_PARSEERROR, source)
  | Some options =>
    match SVR_Encoding_getByName (options !! "%name"%string) with
    | None => ret (SVR_NOSUCHENCODING, source)
    | Some enc =>
      do return_code <-
        request (mkMessage ["Source.setEncoding"; name source; encoding_descriptor]%string []);
      if return_code =? SVR_SUCCESS
      then ret (return_code, set_encoding_fields source enc options)
      else ret (return_code, source)
    end
  end.

(** The registered encoding a descriptor names, if it parses and names
    one. *)
Definition encoding_named (encoding_descriptor : string) : option SVR_Encoding :=
  match SVR_parseOptionString encoding_descriptor with
  | Some options => SVR_Encoding_getByName (options !! "%name"%string)
  | None => None
  end.

Definition frame_properties_string (p : SVR_FrameProperties) : string :=
  fmt_d (width p) +:+ "," +:+ fmt_d (height p) +:+ "," +:+
  fmt_d (depth p) +:+ "," +:+ fmt_d (channels p).

Definition SVR_Source_setFrameProperties (source : SVR_Source)
    (frame_properties : SVR_FrameProperties) : IO (Z * SVR_Source) :=
  do return_code <-
    request (mkMessage ["Source.setFrameProperties"%string; name source;
                        frame_properties_string frame_properties] []);
  if return_code =? SVR_SUCCESS
  then ret (return_code, set_frame_properties source frame_properties)
  else ret (return_code, source).

Definition SVR_Source_new (name : string) : IO (option SVR_Source) :=
  do return_code <- request (mkMessage ["Source.open"; "client"; name]%string []);
  if negb (return_code =? SVR_SUCCESS) then ret None
  else
    let source := mkSource name None None None None (4 * 1024) in
    do r <- SVR_Source_setEncoding source "jpeg";
    if negb (fst r =? SVR_SUCCESS) then
      do r' <- SVR_Source_setEncoding (snd r) "raw";
      ret (Some (snd r'))
    else ret (Some (snd r)).

Definition SVR_Source_destroy (source : SVR_Source) : IO Z :=
  request (mkMessage ["Source.close"%string; name source] []).

(** How far a call of [SVR_Source_sendFrame] got. *)
Inductive Outcome :=
| Returned (return_code : Z)
| Running          (* still in the drain loop when the fuel ran out *)
| Crashed.         (* dereferenced a NULL [frame_properties] *)

(** The [while] loop of [SVR_Source_sendFrame]; the flag tells whether the
    loop was left. *)
Fixpoint drain (fuel : nat) (source_name : string) (cap : Z) (e : SVR_Encoder)
  : IO (bool * SVR_Encoder) :=
  if SVR_Encoder_dataReady e >? 0 then
    match fuel with
    | O => ret (false, e)
    | S fuel' =>
      let (chunk, e') := SVR_Encoder_readData e cap in
      do _ <- emit (ReadData cap chunk);
      do _ <- SVR_Comm_sendMessage (mkMessage ["Data"%string; source_name] chunk) false;
      drain fuel' source_name cap e'
    end
  else ret (true, e).

Definition frame_properties_of (frame : IplImage) : SVR_FrameProperties :=
  mkFrameProperties (Ipl.width frame) (Ipl.height frame) (Ipl.depth frame)
                    (Ipl.nChannels frame).

Definition shape_differs (frame : IplImage) (p : SVR_FrameProperties) : bool :=
  negb (Ipl.width frame =? width p) || negb (Ipl.height frame =? height p) ||
  negb (Ipl.depth frame =? depth p) || negb (Ipl.nChannels frame =? channels p).

(** Lines 234-261: from the lazy construction of the encoder on. *)
Definition sendFrame_encode (fuel : nat) (enc : SVR_Encoding) (source : SVR_Source)
    (frame : IplImage) : IO (Outcome * SVR_Source) :=
  match frame_properties source with
  | None => ret (Crashed, source)
  | Some props =>
    do e <- match encoder source with
            | Some e => ret e
            | None =>
              do _ <- emit (EncoderNew enc (encoding_options source) props);
              ret (SVR_Encoder_new enc (encoding_options source) props)
            end;
    let source := set_encoder source (Some e) in
    if shape_differs frame props then ret (Returned SVR_INVALIDARGUMENT, source)
    else
      do _ <- emit (Encode frame);
      do r <- drain fuel (name source) (payload_buffer_size source)
                    (SVR_Encoder_encode e frame);
      ret (if fst r then Returned SVR_SUCCESS else Running,
           set_encoder source (Some (snd r)))
  end.

Definition SVR_Source_sendFrame (fuel : nat) (source : SVR_Source) (frame : IplImage)
  : IO (Outcome * SVR_Source) :=
  match encoding source with
  | None => ret (Returned SVR_INVALIDSTATE, source)
  | Some enc =>
    match frame_properties source with
    | None =>
      do r <- SVR_Source_setFrameProperties source (frame_properties_of frame);
      if negb (fst r =? SVR_SUCCESS) then ret (Returned (fst r), snd r)
      else sendFrame_encode fuel enc (snd r) frame
    | Some _ => sendFrame_encode fuel enc source frame
    end
  end.

Definition SVR_openServerSource (name descriptor : string) : IO Z :=
  request (mkMessage ["Source.open"; "server"; name; descriptor]%string []).

Definition SVR_closeServerSource (name : string) : IO Z :=
  request (mkMessage ["Source.close"; name]%string []).

(** The loop starts at component 1: component 0 is the status. *)
Definition SVR_getSourcesList : IO (list string) :=
  do response <- SVR_Comm_sendMessage (mkMessage ["Source.getSourcesList"%string] []) true;
  ret (match response with
       | Some r => drop 1 (components r)
       | None => []
       end).

(** The events of the lazy construction of the encoder. *)
Definition construction (enc : SVR_Encoding) (source : SVR_Source)
    (p : SVR_FrameProperties) : list Event :=
  match encoder source with
  | Some _ => []
  | None => [EncoderNew enc (encoding_options source) p]
  end.

Definition current_encoder (enc : SVR_Encoding) (source : SVR_Source)
    (p : SVR_FrameProperties) : SVR_Encoder :=
  match encoder source with
  | Some e => e
  | None => SVR_Encoder_new enc (encoding_options source) p
  end.

(** ** Reading a trace *)

(** The frames pushed into an encoder, oldest first. *)
Definition pushed_frames (t : Trace) : list IplImage :=
  omap (fun ev => match ev with Encode f => Some f | _ => None end) t.

(** The messages handed to the message layer, oldest first. *)
Definition sent_messages (t : Trace) : list (SVR_Message * bool) :=
  omap (fun ev => match ev with Sent m b => Some (m, b) | _ => None end) t.

(** The encoders constructed. *)
Definition constructed (t : Trace)
  : list (SVR_Encoding * option Dictionary * SVR_FrameProperties) :=
  omap (fun ev => match ev with EncoderNew e o p => Some (e, o, p) | _ => None end) t.

Definition verb (m : SVR_Message) : option string := head (components m).

(** The first message of a trace. *)
Definition first_sent (t : Trace) : option SVR_Message :=
  fst <$> head (sent_messages t).

(** ** The drain loop, as the design document words it

    While [data_ready() > 0]: read at most [cap] bytes and send them as a
    [Data] message for the source, without expecting a response. *)
Inductive Drains (source_name : string) (cap : Z)
  : SVR_Encoder -> list Event -> SVR_Encoder -> Prop :=
| Drains_done e :
    SVR_Encoder_dataReady e <= 0 ->
    Drains source_name cap e [] e
| Drains_chunk e chunk e' evs e'' :
    SVR_Encoder_dataReady e > 0 ->
    SVR_Encoder_readData e cap = (chunk, e') ->
    Drains source_name cap e' evs e'' ->
    Drains source_name cap e
           (ReadData cap chunk
            :: Sent (mkMessage ["Data"%string; source_name] chunk) false
            :: evs) e''.

(** What an encoder promises about [readData] (an encoder is a push-in,
    pull-out engine: [dataReady] is the number of bytes pending and
    [readData] drains at most [cap] of them). *)
Class EncoderLaws : Prop := {
  readData_cap e cap : 0 <= cap ->
    Z.of_nat (length (fst (SVR_Encoder_readData e cap))) <= cap;
  readData_progress e cap : 0 < cap -> 0 < SVR_Encoder_dataReady e ->
    SVR_Encoder_dataReady (snd (SVR_Encoder_readData e cap)) < SVR_Encoder_dataReady e
}.

(** An event of the drain loop for a source named [source_name] whose
    payload buffer holds [cap] bytes: a read into the buffer, or a [Data]
    message for the source that expects no response. *)
Definition data_chunk (source_name : string) (cap : Z) (ev : Event) : Prop :=
  match ev with
  | ReadData c chunk => c = cap /\ Z.of_nat (length chunk) <= cap
  | Sent m b =>
    components m = ["Data"%string; source_name] /\ b = false /\ payload_size m <= cap
  | _ => False
  end.

(** The same without the bound on the chunk, which is the encoder's to
    keep. *)
Definition data_event (source_name : string) (cap : Z) (ev : Event) : Prop :=
  match ev with
  | ReadData c _ => c = cap
  | Sent m b => components m = ["Data"%string; source_name] /\ b = false
  | _ => False
  end.

(** ** Sources the library can produce *)

Inductive Reachable : SVR_Source -> Prop :=
| Reachable_new nm t s t' :
    SVR_Source_new nm t = (Some s, t') -> Reachable s
| Reachable_setEncoding s d t rc s' t' :
    Reachable s -> SVR_Source_setEncoding s d t = (rc, s', t') -> Reachable s'
| Reachable_setFrameProperties s p t rc s' t' :
    Reachable s -> SVR_Source_setFrameProperties s p t = (rc, s', t') -> Reachable s'
| Reachable_sendFrame s fuel frame t o s' t' :
    Reachable s -> SVR_Source_sendFrame fuel s frame t = (o, s', t') -> Reachable s'.

(** The request that installs the properties derived from [frame]. *)
Definition install_request (source : SVR_Source) (frame : IplImage) : SVR_Message :=
  mkMessage ["Source.setFrameProperties"%string; name source;
             frame_properties_string
               (mkFrameProperties (Ipl.width frame) (Ipl.height frame)
                                  (Ipl.depth frame) (Ipl.nChannels frame))] [].

(** [SVR_Source_sendFrame] accepts [frame]: the source has an encoding and
    the frame has the installed shape, or no shape is installed and the peer
    accepts the one derived from the frame. *)
Definition accepted (source : SVR_Source) (frame : IplImage) (t : Trace) : Prop :=
  is_Some (encoding source) /\
  match frame_properties source with
  | Some p =>
    Ipl.width frame = width p /\ Ipl.height frame = height p /\
    Ipl.depth frame = depth p /\ Ipl.nChannels frame = channels p
  | None =>
    SVR_Comm_parseResponse (Some (peer t (install_request source frame))) = SVR_SUCCESS
  end.

(** The first step of [SVR_Source_sendFrame] on an accepted frame: the
    source once the frame properties are in place, and what was emitted to
    get there. *)
Definition installed (source : SVR_Source) (frame : IplImage) : SVR_Source :=
  match frame_properties source with
  | Some _ => source
  | None => set_frame_properties source (frame_properties_of frame)
  end.

Definition installation (source : SVR_Source) (frame : IplImage) : list Event :=
  match frame_properties source with
  | Some _ => []
  | None => [Sent (install_request source frame) true]
  end.

(** The events a call of [SVR_Source_sendFrame] may add to the trace. *)
Definition sendFrame_event (source : SVR_Source) (frame : IplImage) (ev : Event)
  : Prop :=
  match ev with
  | Sent m b =>
    (m = install_request source frame /\ b = true /\ frame_properties source = None) \/
    (components m = ["Data"%string; name source] /\ b = false)
  | EncoderNew enc o p =>
    encoding source = Some enc /\ o = encoding_options source /\ encoder source = None
  | Encode f => f = frame
  | ReadData c _ => c = payload_buffer_size source
  end.

(** The chunks read from an encoder, and the payloads of the [Data]
    messages, oldest first. *)
Definition read_chunks (t : Trace) : list (list Byte.byte) :=
  omap (fun ev => match ev with ReadData _ chunk => Some chunk | _ => None end) t.

Definition data_payloads (t : Trace) : list (list Byte.byte) :=
  omap (fun ev => match ev with
                  | Sent m _ =>
                    match components m with
                    | v :: _ => if String.eqb v "Data" then Some (payload m) else None
                    | [] => None
                    end
                  | _ => None
                  end) t.

(** What [SVR_Source_sendFrame] emits before it pushes the frame: the
    installation request and the construction of the encoder. *)
Definition preparation (source : SVR_Source) (frame : IplImage) (ev : Event) : Prop :=
  match ev with
  | Sent m b => m = install_request source frame /\ b = true
  | EncoderNew _ _ _ => True
  | _ => False
  end.

(** What the library keeps true of its sources: the payload buffer holds
    4096 bytes, the encoding and its options are set together, and an
    encoder only exists on a source with an encoding and frame properties. *)
Definition source_invariant (s : SVR_Source) : Prop :=
  payload_buffer_size s = 4096 /\
  (encoding s = None <-> encoding_options s = None) /\
  (encoder s <> None -> encoding s <> None /\ frame_properties s <> None).

End Client.

(** ** A reader for the frame-properties component

    Splits at commas and reads each field as a decimal integer; the
    counterpart of the [sprintf] in [SVR_Source_setFrameProperties]. *)
Fixpoint split_commas (s : string) : list string :=
  match s with
  | EmptyString => [EmptyString]
  | String c s' =>
    if Ascii.eqb c ","%char then EmptyString :: split_commas s'
    else match split_commas s' with
         | [] => [String c EmptyString]
         | f :: fs => String c f :: fs
         end
  end.

Fixpoint no_comma (s : string) : Prop :=
  match s with
  | EmptyString => True
  | String c s' => c <> ","%char /\ no_comma s'
  end.

Definition read_decimal (s : string) : option Z :=
  match NilZero.int_of_string s with
  | Some i => Some (Z.of_int i)
  | None => None
  end.

Definition read_frame_properties (s : string) : option SVR_FrameProperties :=
  match map read_decimal (split_commas s) with
  | [Some w; Some h; Some d; Some c] => Some (mkFrameProperties w h d c)
  | _ => None
  end.

(** ** A small concrete world

    Two registered encodings, a parser for option strings, an encoder that
    queues the raw pixel bytes, and a peer whose status for a request is
    given by a function. *)
Module Demo.

#[export] Instance codes : ErrorCodes :=
  {| SVR_PARSEERROR := 1; SVR_NOSUCHENCODING := 2;
     SVR_INVALIDSTATE := 3; SVR_INVALIDARGUMENT := 4 |}.

Inductive encoding_id := JPEG | RAW.

(** [split_at c s]: the part of [s] before the first [c], and the part
    after it if there is one. *)
Fixpoint split_at (c : ascii) (s : string) : string * option string :=
  match s with
  | EmptyString => (EmptyString, None)
  | String a s' =>
    if Ascii.eqb a c then (EmptyString, Some s')
    else let (before, after) := split_at c s' in (String a before, after)
  end.

(** One [key=value] field added to a dictionary under construction. *)
Definition add_option (field : string) (d : option Dictionary) : option Dictionary :=
  match d, split_at "="%char field with
  | Some d, (String a k, Some v) => Some (<[ String a k := v ]> d)
  | _, _ => None
  end.

(** Option strings: [name[:key=value[,key=value...]]], the name under the
    key [%name]. *)
Definition parse (s : string) : option Dictionary :=
  match split_at ":"%char s with
  | (EmptyString, _) => None
  | (nm, None) => Some {[ "%name"%string := nm ]}
  | (nm, Some opts) =>
    foldr add_option (Some {[ "%name"%string := nm ]}) (split_commas opts)
  end.

Definition getByName (n : option string) : option encoding_id :=
  match n with
  | Some n => if String.eqb n "jpeg" then Some JPEG
              else if String.eqb n "raw" then Some RAW else None
  | None => None
  end.

#[export] Instance codecs : Codecs :=
  {| SVR_Encoding := encoding_id;
     SVR_Encoder := list Byte.byte;
     SVR_parseOptionString := parse;
     SVR_Encoding_getByName := getByName;
     SVR_Encoder_new := fun _ _ _ => [];
     SVR_Encoder_encode := fun e f => e ++ Ipl.imageData f;
     SVR_Encoder_dataReady := fun e => Z.of_nat (length e);
     SVR_Encoder_readData := fun e cap =>
       (take (Z.to_nat cap) e, drop (Z.to_nat cap) e) |}.

Definition status_of (r : option SVR_Message) : Z :=
  match r with
  | Some m => match components m with
              | c :: _ => default (-1) (read_decimal c)
              | [] => -1
              end
  | None => -1
  end.

Definition comm (status : SVR_Message -> Z) : Comm :=
  {| peer := fun _ m => mkMessage [fmt_d (status m)] [];
     SVR_Comm_parseResponse := status_of |}.

(** Peers: one that accepts everything, one that refuses a given verb. *)
Definition accept_all (m : SVR_Message) : Z := 0.

Definition refuse (v : string) (m : SVR_Message) : Z :=
  match components m with
  | c :: _ => if String.eqb c v then 7 else 0
  | [] => 0
  end.

Definition cam_props : SVR_FrameProperties := mkFrameProperties 640 480 8 3.

Definition frame_640 : IplImage :=
  Ipl.mkImage 640 480 8 3 ["x"; "y"; "z"]%byte.

Definition frame_320 : IplImage :=
  Ipl.mkImage 320 240 8 3 ["x"; "y"; "z"]%byte.

Definition jpeg_options : Dictionary := {[ "%name"%string := "jpeg"%string ]}.

(** A source right after [SVR_Source_new] when the peer refuses
    [Source.setEncoding]: no encoding. *)
Definition blank_cam : SVR_Source := mkSource "cam" None None None None 4096.

(** The same after a [SVR_Source_setFrameProperties]. *)
Definition bare_cam : SVR_Source :=
  mkSource "cam" None None None (Some cam_props) 4096.

(** A source right after [SVR_Source_new] with a peer that accepts
    everything. *)
Definition fresh_cam : SVR_Source :=
  mkSource "cam" (Some JPEG) (Some jpeg_options) None None 4096.

(** The same with frame properties, before the first frame ... *)
Definition pinned_cam : SVR_Source :=
  mkSource "cam" (Some JPEG) (Some jpeg_options) None (Some cam_props) 4096.

(** ... and after it: the encoder exists and is drained. *)
Definition live_cam : SVR_Source :=
  mkSource "cam" (Some JPEG) (Some jpeg_options) (Some []) (Some cam_props) 4096.

(** A frame without pixel data: pushed into the encoder of this world it
    leaves nothing to drain. *)
Definition empty_frame : IplImage := Ipl.mkImage 640 480 8 3 [].

(** A world whose encoder reports its pending bytes but never hands them
    over. *)
Definition stalled_codecs : Codecs :=
  {| SVR_Encoding := encoding_id;
     SVR_Encoder := list Byte.byte;
     SVR_parseOptionString := parse;
     SVR_Encoding_getByName := getByName;
     SVR_Encoder_new := fun _ _ _ => [];
     SVR_Encoder_encode := fun e f => e ++ Ipl.imageData f;
     SVR_Encoder_dataReady := fun e => Z.of_nat (length e);
     SVR_Encoder_readData := fun e cap => ([], e) |}.

Definition stalled_comm : Comm (CD := stalled_codecs) :=
  {| peer := fun _ m => mkMessage [fmt_d 0] [];
     SVR_Comm_parseResponse := status_of |}.

Definition stalled_cam : SVR_Source (CD := stalled_codecs) :=
  mkSource (CD := stalled_codecs) "cam" (Some JPEG) (Some jpeg_options) (Some [])
           (Some cam_props) 4096.

End Demo.

(** * Properties *)

Section Properties.

Context {EC : ErrorCodes} {CD : Codecs} {CM : Comm}.

Implicit Types (source : SVR_Source) (t : Trace) (frame : IplImage)
  (p : SVR_FrameProperties) (m : SVR_Message).

Ltac run := unfold request, bind, ret, emit, SVR_Comm_sendMessage.

(** ** Running the building blocks *)

Lemma request_run m t :
  request m t = (SVR_Comm_parseResponse (Some (peer t m)), t ++ [Sent m true]).
Proof. reflexivity. Qed.

Lemma setEncoding_parse_error source d t :
  SVR_parseOptionString d = None ->
  SVR_Source_setEncoding source d t = (SVR_PARSEERROR, source, t).
Proof. intros E. unfold SVR_Source_setEncoding. now rewrite E. Qed.

Lemma setEncoding_no_such_encoding source d t options :
  SVR_parseOptionString d = Some options ->
  SVR_Encoding_getByName (options !! "%name"%string) = None ->
  SVR_Source_setEncoding source d t = (SVR_NOSUCHENCODING, source, t).
Proof. intros E1 E2. unfold SVR_Source_setEncoding. now rewrite E1, E2. Qed.

Lemma setEncoding_asks_peer source d t options enc :
  SVR_parseOptionString d = Some options ->
  SVR_Encoding_getByName (options !! "%name"%string) = Some enc ->
  let m := mkMessage ["Source.setEncoding"%string; name source; d] [] in
  let rc := SVR_Comm_parseResponse (Some (peer t m)) in
  SVR_Source_setEncoding source d t =
    (rc, if rc =? SVR_SUCCESS then set_encoding_fields source enc options else source,
     t ++ [Sent m true]).
Proof.
  intros E1 E2 m rc. unfold SVR_Source_setEncoding. rewrite E1, E2.
  run. fold m. fold rc. now destruct (rc =? SVR_SUCCESS).
Qed.

Lemma setFrameProperties_run source p t :
  let m := mkMessage ["Source.setFrameProperties"%string; name source;
                      frame_properties_string p] [] in
  let rc := SVR_Comm_parseResponse (Some (peer t m)) in
  SVR_Source_setFrameProperties source p t =
    (rc, if rc =? SVR_SUCCESS then set_frame_properties source p else source,
     t ++ [Sent m true]).
Proof.
  intros m rc. unfold SVR_Source_setFrameProperties. run. fold m. fold rc.
  now destruct (rc =? SVR_SUCCESS).
Qed.

(** Whatever happens, [SVR_Source_setEncoding] only touches the two encoding
    fields. *)
Lemma setEncoding_frame source d t :
  let s' := snd (fst (SVR_Source_setEncoding source d t)) in
  name s' = name source /\ encoder s' = encoder source /\
  frame_properties s' = frame_properties source /\
  payload_buffer_size s' = payload_buffer_size source.
Proof.
  destruct (SVR_parseOptionString d) as [options|] eqn:E1.
  - destruct (SVR_Encoding_getByName (options !! "%name"%string)) as [enc|] eqn:E2.
    + rewrite (setEncoding_asks_peer _ _ _ _ _ E1 E2). simpl.
      now destruct (_ =? _).
    + now rewrite (setEncoding_no_such_encoding _ _ _ _ E1 E2).
  - now rewrite (setEncoding_parse_error _ _ _ E1).
Qed.

Lemma setEncoding_failure_unchanged source d t :
  fst (fst (SVR_Source_setEncoding source d t)) <> SVR_SUCCESS ->
  snd (fst (SVR_Source_setEncoding source d t)) = source.
Proof.
  destruct (SVR_parseOptionString d) as [options|] eqn:E1.
  - destruct (SVR_Encoding_getByName (options !! "%name"%string)) as [enc|] eqn:E2.
    + rewrite (setEncoding_asks_peer _ _ _ _ _ E1 E2). simpl.
      destruct (Z.eqb_spec (SVR_Comm_parseResponse
        (Some (peer t (mkMessage ["Source.setEncoding"%string; name source; d] []))))
        SVR_SUCCESS); congruence.
    + now rewrite (setEncoding_no_such_encoding _ _ _ _ E1 E2).
  - now rewrite (setEncoding_parse_error _ _ _ E1).
Qed.

(** C3: [SVR_Source_setEncoding] returns [SVR_PARSEERROR] when the option
    string does not parse and [SVR_NOSUCHENCODING] when the encoding named
    by the [%name] key is not registered; when both steps succeed and the
    peer answers success, the source's encoding and options are the parsed
    ones; and whenever the call does not return success, the source (its
    encoding and options included) is left as it was. *)
Theorem setEncoding_contract source d t :
  (SVR_parseOptionString d = None ->
   fst (fst (SVR_Source_setEncoding source d t)) = SVR_PARSEERROR) /\
  (forall options, SVR_parseOptionString d = Some options ->
   SVR_Encoding_getByName (options !! "%name"%string) = None ->
   fst (fst (SVR_Source_setEncoding source d t)) = SVR_NOSUCHENCODING) /\
  (forall options enc, SVR_parseOptionString d = Some options ->
   SVR_Encoding_getByName (options !! "%name"%string) = Some enc ->
   fst (fst (SVR_Source_setEncoding source d t)) = SVR_SUCCESS ->
   encoding (snd (fst (SVR_Source_setEncoding source d t))) = Some enc /\
   encoding_options (snd (fst (SVR_Source_setEncoding source d t))) = Some options) /\
  (fst (fst (SVR_Source_setEncoding source d t)) <> SVR_SUCCESS ->
   encoding (snd (fst (SVR_Source_setEncoding source d t))) = encoding source /\
   encoding_options (snd (fst (SVR_Source_setEncoding source d t)))
     = encoding_options source).
Proof.
  split; [|split; [|split]].
  - intros E. now rewrite (setEncoding_parse_error _ _ _ E).
  - intros options E1 E2. now rewrite (setEncoding_no_such_encoding _ _ _ _ E1 E2).
  - intros options enc E1 E2. rewrite (setEncoding_asks_peer _ _ _ _ _ E1 E2). simpl.
    intros Hrc. apply Z.eqb_eq in Hrc. now rewrite Hrc.
  - intros Hrc. now rewrite (setEncoding_failure_unchanged _ _ _ Hrc).
Qed.

(** ** The frame-properties component *)

Lemma split_commas_nonempty s : split_commas s <> [].
Proof.
  destruct s as [|c s]; simpl; [easy|].
  destruct (Ascii.eqb c ","); [easy|]. now destruct (split_commas s).
Qed.

Lemma split_commas_field a rest :
  no_comma a ->
  split_commas (a +:+ "," +:+ rest) = a :: split_commas rest.
Proof.
  induction a as [|c a IH]; simpl; [easy|].
  intros [Hc Ha]. apply Ascii.eqb_neq in Hc. rewrite Hc.
  now rewrite (IH Ha).
Qed.

Lemma split_commas_last a : no_comma a -> split_commas a = [a].
Proof.
  induction a as [|c a IH]; simpl; [easy|].
  intros [Hc Ha]. apply Ascii.eqb_neq in Hc. rewrite Hc.
  now rewrite (IH Ha).
Qed.

Lemma no_comma_uint d : no_comma (NilEmpty.string_of_uint d).
Proof. induction d; simpl; auto; split; auto; discriminate. Qed.

Lemma no_comma_fmt_d z : no_comma (fmt_d z).
Proof.
  unfold fmt_d.
  assert (U : forall d, no_comma (NilZero.string_of_uint d)).
  { intros d. generalize (no_comma_uint d). destruct d; simpl; auto. }
  destruct (Z.to_int z) as [d|d]; simpl; [apply U|].
  split; [discriminate|apply U].
Qed.

Lemma read_decimal_fmt_d z : read_decimal (fmt_d z) = Some z.
Proof.
  unfold read_decimal, fmt_d.
  rewrite NilZero.isi.
  - now rewrite DecimalZ.of_to.
  - destruct z as [|q|q]; simpl; try discriminate.
    intros [= E]. now apply (DecimalPos.Unsigned.to_uint_nonnil q).
  - destruct z as [|q|q]; simpl; try discriminate.
    intros [= E]. now apply (DecimalPos.Unsigned.to_uint_nonnil q).
Qed.

Lemma frame_properties_string_fields p :
  split_commas (frame_properties_string p)
  = [fmt_d (width p); fmt_d (height p); fmt_d (depth p); fmt_d (channels p)].
Proof.
  unfold frame_properties_string.
  rewrite !split_commas_field by apply no_comma_fmt_d.
  now rewrite split_commas_last by apply no_comma_fmt_d.
Qed.

(** C8: the one message [SVR_Source_setFrameProperties] sends is a request
    whose third component is the width, the height, the depth and the
    channels printed in decimal, in that order, with commas between them:
    splitting it at the commas gives exactly these four numerals, and reading
    them back gives the frame properties. *)
Theorem setFrameProperties_component source p t :
  exists c,
    snd (SVR_Source_setFrameProperties source p t)
      = t ++ [Sent (mkMessage ["Source.setFrameProperties"%string; name source; c] [])
                   true] /\
    c = (fmt_d (width p) +:+ "," +:+ fmt_d (height p) +:+ "," +:+
         fmt_d (depth p) +:+ "," +:+ fmt_d (channels p))%string /\
    split_commas c
      = [fmt_d (width p); fmt_d (height p); fmt_d (depth p); fmt_d (channels p)] /\
    map read_decimal (split_commas c)
      = [Some (width p); Some (height p); Some (depth p); Some (channels p)] /\
    read_frame_properties c = Some p.
Proof.
  exists (frame_properties_string p).
  assert (R : map read_decimal (split_commas (frame_properties_string p))
    = [Some (width p); Some (height p); Some (depth p); Some (channels p)]).
  { rewrite frame_properties_string_fields. simpl.
    now rewrite !read_decimal_fmt_d. }
  split; [now rewrite setFrameProperties_run|].
  split; [reflexivity|].
  split; [apply frame_properties_string_fields|].
  split; [exact R|].
  unfold read_frame_properties. rewrite R. now destruct p.
Qed.

(** ** Opening a source *)

Lemma Source_new_run nm t :
  let m := mkMessage ["Source.open"; "client"; nm]%string [] in
  let rc := SVR_Comm_parseResponse (Some (peer t m)) in
  let t1 := t ++ [Sent m true] in
  let fresh := mkSource nm None None None None 4096 in
  let jpeg := SVR_Source_setEncoding fresh "jpeg" t1 in
  let raw := SVR_Source_setEncoding (snd (fst jpeg)) "raw" (snd jpeg) in
  SVR_Source_new nm t =
    if rc =? SVR_SUCCESS then
      if fst (fst jpeg) =? SVR_SUCCESS then (Some (snd (fst jpeg)), snd jpeg)
      else (Some (snd (fst raw)), snd raw)
    else (None, t1).
Proof.
  intros m rc t1 fresh jpeg raw. unfold SVR_Source_new, bind, ret.
  rewrite request_run. fold m rc t1. change (4 * 1024) with 4096. fold fresh.
  destruct (rc =? SVR_SUCCESS); cbn [negb]; [|reflexivity].
  subst raw jpeg.
  destruct (SVR_Source_setEncoding fresh "jpeg" t1) as [[rcj sj] tj]. cbn [fst snd].
  destruct (rcj =? SVR_SUCCESS); cbn [negb]; [reflexivity|].
  now destruct (SVR_Source_setEncoding sj "raw" tj) as [[rcr sr] tr].
Qed.

Lemma setEncoding_on_fresh source d t :
  encoding source = None ->
  (fst (fst (SVR_Source_setEncoding source d t)) = SVR_SUCCESS ->
   encoding (snd (fst (SVR_Source_setEncoding source d t))) = encoding_named d) /\
  (fst (fst (SVR_Source_setEncoding source d t)) <> SVR_SUCCESS ->
   encoding (snd (fst (SVR_Source_setEncoding source d t))) = None).
Proof.
  intros N. unfold encoding_named.
  destruct (SVR_parseOptionString d) as [options|] eqn:E1.
  - destruct (SVR_Encoding_getByName (options !! "%name"%string)) as [enc|] eqn:E2.
    + rewrite (setEncoding_asks_peer _ _ _ _ _ E1 E2). cbn [fst snd].
      destruct (Z.eqb_spec (SVR_Comm_parseResponse
        (Some (peer t (mkMessage ["Source.setEncoding"%string; name source; d] []))))
        SVR_SUCCESS); split; intros; try easy.
    + now rewrite (setEncoding_no_such_encoding _ _ _ _ E1 E2).
  - now rewrite (setEncoding_parse_error _ _ _ E1).
Qed.

(** C10: [SVR_Source_new] returns no source when the [Source.open] request
    is not answered with success.  Otherwise it returns a source with the
    given name, no encoder and no frame properties.  That source is the
    fresh one after [SVR_Source_setEncoding] with "jpeg" when that call
    succeeds, and its encoding is then the one "jpeg" names; when it does
    not, the source is the still untouched fresh one after a further call
    with "raw", with the encoding "raw" names if that call succeeds and no
    encoding if it fails too. *)
Theorem Source_new_contract nm t :
  let m := mkMessage ["Source.open"; "client"; nm]%string [] in
  let rc := SVR_Comm_parseResponse (Some (peer t m)) in
  let t1 := t ++ [Sent m true] in
  let fresh := mkSource nm None None None None 4096 in
  let jpeg := SVR_Source_setEncoding fresh "jpeg" t1 in
  let raw := SVR_Source_setEncoding fresh "raw" (snd jpeg) in
  (rc <> SVR_SUCCESS -> SVR_Source_new nm t = (None, t1)) /\
  (rc = SVR_SUCCESS ->
   exists s t', SVR_Source_new nm t = (Some s, t') /\
     name s = nm /\ encoder s = None /\ frame_properties s = None /\
     (fst (fst jpeg) = SVR_SUCCESS ->
      s = snd (fst jpeg) /\ t' = snd jpeg /\ encoding s = encoding_named "jpeg") /\
     (fst (fst jpeg) <> SVR_SUCCESS ->
      s = snd (fst raw) /\ t' = snd raw /\
      (fst (fst raw) = SVR_SUCCESS -> encoding s = encoding_named "raw") /\
      (fst (fst raw) <> SVR_SUCCESS -> encoding s = None))).
Proof.
  intros m rc t1 fresh jpeg raw.
  pose proof (Source_new_run nm t) as R. cbv zeta in R. fold m rc t1 fresh jpeg in R.
  split; intros Hrc.
  - apply Z.eqb_neq in Hrc. now rewrite Hrc in R.
  - apply Z.eqb_eq in Hrc. rewrite Hrc in R.
    pose proof (setEncoding_frame fresh "jpeg" t1) as (F1 & F2 & F3 & _).
    pose proof (setEncoding_on_fresh fresh "jpeg" t1 eq_refl) as [J1 J2].
    fold jpeg in F1, F2, F3, J1, J2.
    destruct (Z.eqb_spec (fst (fst jpeg)) SVR_SUCCESS) as [Hj|Hj].
    + exists (snd (fst jpeg)), (snd jpeg). now repeat split; auto.
    + pose proof (setEncoding_failure_unchanged fresh "jpeg" t1 Hj) as U.
      fold jpeg in U. rewrite U in R. fold raw in R.
      pose proof (setEncoding_frame fresh "raw" (snd jpeg)) as (G1 & G2 & G3 & _).
      pose proof (setEncoding_on_fresh fresh "raw" (snd jpeg) eq_refl) as [R1 R2].
      fold raw in G1, G2, G3, R1, R2.
      exists (snd (fst raw)), (snd raw). now repeat split; auto.
Qed.

(** ** Sending a frame: the checks *)

Lemma shape_differs_true frame p :
  shape_differs frame p = true <->
  Ipl.width frame <> width p \/ Ipl.height frame <> height p \/
  Ipl.depth frame <> depth p \/ Ipl.nChannels frame <> channels p.
Proof.
  unfold shape_differs.
  destruct (Z.eqb_spec (Ipl.width frame) (width p)),
           (Z.eqb_spec (Ipl.height frame) (height p)),
           (Z.eqb_spec (Ipl.depth frame) (depth p)),
           (Z.eqb_spec (Ipl.nChannels frame) (channels p)); simpl;
    split; intros H; try reflexivity; try discriminate; tauto.
Qed.

Lemma shape_differs_false frame p :
  shape_differs frame p = false <->
  Ipl.width frame = width p /\ Ipl.height frame = height p /\
  Ipl.depth frame = depth p /\ Ipl.nChannels frame = channels p.
Proof.
  unfold shape_differs.
  destruct (Z.eqb_spec (Ipl.width frame) (width p)),
           (Z.eqb_spec (Ipl.height frame) (height p)),
           (Z.eqb_spec (Ipl.depth frame) (depth p)),
           (Z.eqb_spec (Ipl.nChannels frame) (channels p)); simpl;
    split; intros H; try reflexivity; try discriminate; tauto.
Qed.

Lemma sendFrame_no_encoding_run fuel source frame t :
  encoding source = None ->
  SVR_Source_sendFrame fuel source frame t = (Returned SVR_INVALIDSTATE, source, t).
Proof. intros E. unfold SVR_Source_sendFrame. now rewrite E. Qed.

(** C9: on a source without an encoding [SVR_Source_sendFrame] returns
    [SVR_INVALIDSTATE] at once: the source comes back as it was (no frame
    properties installed, no encoder constructed) and the trace is not
    extended (no message sent, no call into an encoder). *)
Theorem sendFrame_without_encoding fuel source frame t :
  encoding source = None ->
  SVR_Source_sendFrame fuel source frame t = (Returned SVR_INVALIDSTATE, source, t).
Proof. apply sendFrame_no_encoding_run. Qed.

Lemma sendFrame_with_properties fuel source frame t enc p :
  encoding source = Some enc -> frame_properties source = Some p ->
  SVR_Source_sendFrame fuel source frame t = sendFrame_encode fuel enc source frame t.
Proof. intros E F. unfold SVR_Source_sendFrame. now rewrite E, F. Qed.

(** ** The drain loop *)

(** The loop never looks at the trace: it only extends it. *)
Lemma drain_trace fuel nm cap e t :
  drain fuel nm cap e t
  = (fst (drain fuel nm cap e []), t ++ snd (drain fuel nm cap e [])).
Proof.
  revert e t. induction fuel as [|fuel IH]; intros e t; simpl.
  - destruct (_ >? 0); run; simpl; now rewrite app_nil_r.
  - destruct (_ >? 0); [|run; simpl; now rewrite app_nil_r].
    destruct (SVR_Encoder_readData e cap) as [chunk e']. run.
    rewrite IH. rewrite (IH e' (_ ++ _)). simpl.
    now rewrite <- !app_assoc.
Qed.

Lemma drain_sound fuel nm cap e e' evs :
  drain fuel nm cap e [] = (true, e', evs) -> Drains nm cap e evs e'.
Proof.
  revert e evs. induction fuel as [|fuel IH]; intros e evs; simpl.
  - destruct (Z.gtb_spec (SVR_Encoder_dataReady e) 0); run; intros [= <- <-].
    now constructor.
  - destruct (Z.gtb_spec (SVR_Encoder_dataReady e) 0) as [G|G];
      [|run; intros [= <- <-]; now constructor].
    destruct (SVR_Encoder_readData e cap) as [chunk e1] eqn:R. run.
    rewrite drain_trace. simpl.
    destruct (drain fuel nm cap e1 []) as [[b e2] evs2] eqn:D. simpl.
    intros [= -> -> <-]. apply Drains_chunk with e1; [lia|exact R|].
    now apply IH.
Qed.

Lemma drain_complete nm cap e evs e' :
  Drains nm cap e evs e' ->
  forall fuel, (length evs <= 2 * fuel)%nat ->
  drain fuel nm cap e [] = (true, e', evs).
Proof.
  induction 1 as [e L|e chunk e1 evs e2 G R D IH]; intros fuel Hf.
  - destruct fuel; simpl; destruct (Z.gtb_spec (SVR_Encoder_dataReady e) 0);
      try lia; reflexivity.
  - destruct fuel as [|fuel]; [simpl in Hf; lia|]. simpl.
    destruct (Z.gtb_spec (SVR_Encoder_dataReady e) 0); [|lia].
    rewrite R. run. rewrite drain_trace.
    rewrite (IH fuel) by (simpl in Hf; lia). reflexivity.
Qed.

(** With an encoder that keeps its promises the loop ends, after at most
    as many rounds as bytes were pending. *)
Lemma Drains_terminates `{!EncoderLaws} nm cap :
  0 < cap ->
  forall e, exists evs e',
    Drains nm cap e evs e' /\
    (length evs <= 2 * Z.to_nat (SVR_Encoder_dataReady e))%nat.
Proof.
  intros Hcap e.
  remember (Z.to_nat (SVR_Encoder_dataReady e)) as n eqn:En.
  revert e En. induction n as [n IH] using lt_wf_ind. intros e En.
  destruct (Z_le_gt_dec (SVR_Encoder_dataReady e) 0) as [L|G].
  - exists [], e. split; [now constructor|simpl; lia].
  - destruct (SVR_Encoder_readData e cap) as [chunk e1] eqn:R.
    pose proof (readData_progress e cap Hcap ltac:(lia)) as P.
    rewrite R in P. simpl in P.
    destruct (IH (Z.to_nat (SVR_Encoder_dataReady e1)) ltac:(lia) e1 eq_refl)
      as (evs & e2 & D & Hlen).
    exists (ReadData cap chunk :: Sent (mkMessage ["Data"%string; nm] chunk) false :: evs), e2.
    split; [now apply Drains_chunk with e1|]. simpl. lia.
Qed.

Lemma Drains_chunks `{!EncoderLaws} nm cap e evs e' :
  0 <= cap -> Drains nm cap e evs e' ->
  Forall (data_chunk nm cap) evs /\ SVR_Encoder_dataReady e' <= 0.
Proof.
  intros Hcap. induction 1 as [e L|e chunk e1 evs e2 G R D [IH1 IH2]].
  - split; [constructor|exact L].
  - pose proof (readData_cap e cap Hcap) as C. rewrite R in C. simpl in C.
    split; [|exact IH2].
    repeat constructor; simpl; auto.
Qed.

(** ** Sending a frame: past the checks *)

Lemma sendFrame_encode_run fuel enc source frame t p :
  frame_properties source = Some p ->
  let e := current_encoder enc source p in
  let d := drain fuel (name source) (payload_buffer_size source)
                 (SVR_Encoder_encode e frame) [] in
  sendFrame_encode fuel enc source frame t =
    if shape_differs frame p
    then (Returned SVR_INVALIDARGUMENT, set_encoder source (Some e),
          t ++ construction enc source p)
    else (if fst (fst d) then Returned SVR_SUCCESS else Running,
          set_encoder source (Some (snd (fst d))),
          t ++ construction enc source p ++ Encode frame :: snd d).
Proof.
  intros F e d. subst e d. unfold sendFrame_encode, construction, current_encoder.
  rewrite F. destruct (encoder source) as [e0|]; run;
    destruct (shape_differs frame p); simpl;
    rewrite ?app_nil_r; try reflexivity;
    rewrite drain_trace; simpl; now rewrite <- ?app_assoc.
Qed.

Lemma pushed_frames_app t1 t2 :
  pushed_frames (t1 ++ t2) = pushed_frames t1 ++ pushed_frames t2.
Proof. apply omap_app. Qed.

Lemma sent_messages_app t1 t2 :
  sent_messages (t1 ++ t2) = sent_messages t1 ++ sent_messages t2.
Proof. apply omap_app. Qed.

Lemma constructed_app t1 t2 :
  constructed (t1 ++ t2) = constructed t1 ++ constructed t2.
Proof. apply omap_app. Qed.

Lemma construction_quiet enc source p :
  pushed_frames (construction enc source p) = [] /\
  sent_messages (construction enc source p) = [].
Proof. unfold construction. now destruct (encoder source). Qed.

(** C1, as the code has it: on a source with an encoding and installed
    frame properties, a frame whose width, height, depth or number of
    channels differs from them makes [SVR_Source_sendFrame] return
    [SVR_INVALIDARGUMENT]; the properties stay installed, no frame is pushed
    into an encoder and no message is sent. *)
Theorem sendFrame_shape_mismatch fuel source frame t enc p :
  encoding source = Some enc ->
  frame_properties source = Some p ->
  Ipl.width frame <> width p \/ Ipl.height frame <> height p \/
  Ipl.depth frame <> depth p \/ Ipl.nChannels frame <> channels p ->
  exists s' t',
    SVR_Source_sendFrame fuel source frame t = (Returned SVR_INVALIDARGUMENT, s', t') /\
    frame_properties s' = Some p /\
    pushed_frames t' = pushed_frames t /\
    sent_messages t' = sent_messages t.
Proof.
  intros E F D. apply shape_differs_true in D.
  rewrite (sendFrame_with_properties _ _ _ _ _ _ E F).
  rewrite (sendFrame_encode_run _ _ _ _ _ _ F). cbv zeta. rewrite D.
  destruct (construction_quiet enc source p) as [Q1 Q2].
  eexists _, _. split; [reflexivity|]. split; [exact F|].
  rewrite pushed_frames_app, sent_messages_app, Q1, Q2.
  now rewrite !app_nil_r.
Qed.

Lemma sendFrame_encode_extends fuel enc source frame t p :
  frame_properties source = Some p ->
  exists o e evs,
    sendFrame_encode fuel enc source frame t = (o, set_encoder source (Some e), t ++ evs).
Proof.
  intros F. rewrite (sendFrame_encode_run _ _ _ _ _ _ F). cbv zeta.
  destruct (shape_differs frame p); eexists _, _, _; reflexivity.
Qed.

Lemma sendFrame_install_run fuel source frame t enc :
  encoding source = Some enc ->
  frame_properties source = None ->
  let derived := frame_properties_of frame in
  let m := install_request source frame in
  let rc := SVR_Comm_parseResponse (Some (peer t m)) in
  SVR_Source_sendFrame fuel source frame t =
    if rc =? SVR_SUCCESS
    then sendFrame_encode fuel enc (set_frame_properties source derived) frame
                          (t ++ [Sent m true])
    else (Returned rc, source, t ++ [Sent m true]).
Proof.
  intros E F derived m rc.
  pose proof (setFrameProperties_run source derived t) as R.
  cbv zeta in R.
  unfold SVR_Source_sendFrame. rewrite E, F. unfold bind at 1.
  fold derived. rewrite R. cbn [fst snd].
  change (mkMessage _ []) with m. change (SVR_Comm_parseResponse _) with rc.
  now destruct (rc =? SVR_SUCCESS).
Qed.

(** C2, as the code has it: on a source with an encoding and no frame
    properties, [SVR_Source_sendFrame] first asks the peer to install the
    properties read off the frame, through [SVR_Source_setFrameProperties].
    If the answer is not success the call returns that answer, leaves the
    source alone and nothing but the request was emitted.  If it is, the
    call goes on exactly as on the source with the properties installed, so
    the request comes before every other event of the call, and the
    properties are still installed when it ends. *)
Theorem sendFrame_installs_first fuel source frame t enc :
  encoding source = Some enc ->
  frame_properties source = None ->
  let derived := mkFrameProperties (Ipl.width frame) (Ipl.height frame)
                                   (Ipl.depth frame) (Ipl.nChannels frame) in
  let m := mkMessage ["Source.setFrameProperties"%string; name source;
                      frame_properties_string derived] [] in
  let rc := SVR_Comm_parseResponse (Some (peer t m)) in
  (rc <> SVR_SUCCESS ->
   SVR_Source_sendFrame fuel source frame t = (Returned rc, source, t ++ [Sent m true])) /\
  (rc = SVR_SUCCESS ->
   SVR_Source_setFrameProperties source derived t
     = (rc, set_frame_properties source derived, t ++ [Sent m true]) /\
   SVR_Source_sendFrame fuel source frame t
     = SVR_Source_sendFrame fuel (set_frame_properties source derived) frame
                            (t ++ [Sent m true]) /\
   exists o s' evs,
     SVR_Source_sendFrame fuel source frame t = (o, s', t ++ Sent m true :: evs) /\
     frame_properties s' = Some derived).
Proof.
  intros E F derived m rc.
  pose proof (setFrameProperties_run source derived t) as R.
  pose proof (sendFrame_install_run fuel source frame t enc E F) as S.
  cbv zeta in R, S. fold m rc in R.
  change (frame_properties_of frame) with derived in S.
  change (install_request source frame) with m in S. fold rc in S.
  split; intros Hrc.
  - apply Z.eqb_neq in Hrc. now rewrite S, Hrc.
  - apply Z.eqb_eq in Hrc. rewrite Hrc in S, R. simpl in S.
    split; [exact R|]. split.
    + rewrite S. symmetry. now apply sendFrame_with_properties with derived.
    + destruct (sendFrame_encode_extends fuel enc (set_frame_properties source derived)
                  frame (t ++ [Sent m true]) derived eq_refl) as (o & e & evs & X).
      exists o, (set_encoder (set_frame_properties source derived) (Some e)), evs.
      rewrite S, X. now rewrite <- app_assoc.
Qed.

(** ** What a call of [SVR_Source_sendFrame] emits and keeps *)

Lemma drain_events fuel nm cap e :
  Forall (data_event nm cap) (snd (drain fuel nm cap e [])).
Proof.
  revert e. induction fuel as [|fuel IH]; intros e; simpl.
  - destruct (_ >? 0); constructor.
  - destruct (_ >? 0); [|constructor].
    destruct (SVR_Encoder_readData e cap) as [chunk e']. run.
    rewrite drain_trace. simpl.
    repeat constructor. apply IH.
Qed.

Lemma data_event_sendFrame_event source frame ev :
  data_event (name source) (payload_buffer_size source) ev ->
  sendFrame_event source frame ev.
Proof. destruct ev; simpl; tauto. Qed.

Lemma sendFrame_encode_trace fuel enc source frame t p :
  encoding source = Some enc ->
  frame_properties source = Some p ->
  exists evs, snd (sendFrame_encode fuel enc source frame t) = t ++ evs /\
    Forall (sendFrame_event source frame) evs.
Proof.
  intros E F. rewrite (sendFrame_encode_run _ _ _ _ _ _ F). cbv zeta.
  assert (C : Forall (sendFrame_event source frame) (construction enc source p)).
  { unfold construction. destruct (encoder source) eqn:X; repeat constructor; auto. }
  destruct (shape_differs frame p); cbn [snd]; eexists; (split; [reflexivity|]); auto.
  apply Forall_app. split; [exact C|]. constructor; [reflexivity|].
  eapply Forall_impl; [apply drain_events|].
  intros ev. apply data_event_sendFrame_event.
Qed.

Lemma sendFrame_trace fuel source frame t :
  exists evs, snd (SVR_Source_sendFrame fuel source frame t) = t ++ evs /\
    Forall (sendFrame_event source frame) evs.
Proof.
  destruct (encoding source) as [enc|] eqn:E.
  - destruct (frame_properties source) as [p|] eqn:F.
    + rewrite (sendFrame_with_properties _ _ _ _ _ _ E F).
      now apply sendFrame_encode_trace with p.
    + rewrite (sendFrame_install_run _ _ _ _ _ E F). cbv zeta.
      destruct (_ =? SVR_SUCCESS).
      * destruct (sendFrame_encode_trace fuel enc
          (set_frame_properties source (frame_properties_of frame)) frame
          (t ++ [Sent (install_request source frame) true])
          (frame_properties_of frame) E eq_refl) as (evs & X & Y).
        exists (Sent (install_request source frame) true :: evs).
        rewrite X, <- app_assoc. split; [reflexivity|].
        constructor; [simpl; auto|].
        eapply Forall_impl; [exact Y|].
        intros [m b|enc' o p'|f|c chunk]; simpl; auto.
        intros [[-> [-> [=]]]|H]; auto.
      * exists [Sent (install_request source frame) true].
        split; [reflexivity|]. repeat constructor; simpl; auto.
  - rewrite (sendFrame_no_encoding_run _ _ _ _ E).
    exists []. split; [now rewrite app_nil_r|constructor].
Qed.

Lemma sendFrame_fields fuel source frame t :
  let s' := snd (fst (SVR_Source_sendFrame fuel source frame t)) in
  name s' = name source /\ encoding s' = encoding source /\
  encoding_options s' = encoding_options source /\
  payload_buffer_size s' = payload_buffer_size source.
Proof.
  cbv zeta. destruct (encoding source) as [enc|] eqn:E.
  - destruct (frame_properties source) as [p|] eqn:F.
    + rewrite (sendFrame_with_properties _ _ _ _ _ _ E F).
      rewrite (sendFrame_encode_run _ _ _ _ _ _ F). cbv zeta.
      now destruct (shape_differs frame p).
    + rewrite (sendFrame_install_run _ _ _ _ _ E F). cbv zeta.
      destruct (_ =? SVR_SUCCESS); [|easy].
      rewrite (sendFrame_encode_run fuel enc
        (set_frame_properties source (frame_properties_of frame)) frame _
        (frame_properties_of frame) eq_refl).
      cbv zeta. now destruct (shape_differs frame _).
  - now rewrite (sendFrame_no_encoding_run _ _ _ _ E).
Qed.

(** X15: the shape check of [SVR_Source_sendFrame] never dereferences a
    NULL [frame_properties]: whatever the source, the frame and the peer's
    answers, past the installation step the frame properties are there. *)
Lemma sendFrame_never_crashes fuel source frame t :
  fst (fst (SVR_Source_sendFrame fuel source frame t)) <> Crashed.
Proof.
  destruct (encoding source) as [enc|] eqn:E.
  - destruct (frame_properties source) as [p|] eqn:F.
    + rewrite (sendFrame_with_properties _ _ _ _ _ _ E F).
      rewrite (sendFrame_encode_run _ _ _ _ _ _ F). cbv zeta.
      destruct (shape_differs frame p); [easy|cbn [fst]].
      now destruct (fst (fst (drain _ _ _ _ _))).
    + rewrite (sendFrame_install_run _ _ _ _ _ E F). cbv zeta.
      destruct (_ =? SVR_SUCCESS); [|easy].
      rewrite (sendFrame_encode_run fuel enc
        (set_frame_properties source (frame_properties_of frame)) frame _
        (frame_properties_of frame) eq_refl).
      cbv zeta. destruct (shape_differs frame _); [easy|cbn [fst]].
      now destruct (fst (fst (drain _ _ _ _ _))).
  - now rewrite (sendFrame_no_encoding_run _ _ _ _ E).
Qed.

(** Every source the library produces has a payload buffer of 4096 bytes. *)
Lemma Reachable_payload_buffer_size source :
  Reachable source -> payload_buffer_size source = 4096.
Proof.
  induction 1 as [nm t s t' N|s d t rc s' t' _ IH X|s p t rc s' t' _ IH X
                 |s fuel frame t o s' t' _ IH X].
  - rewrite Source_new_run in N. cbv zeta in N.
    destruct (_ =? SVR_SUCCESS); [|discriminate].
    set (fresh := mkSource nm None None None None 4096) in *.
    set (t1 := t ++ _) in *.
    pose proof (setEncoding_frame fresh "jpeg" t1) as (_ & _ & _ & J).
    pose proof (setEncoding_frame
      (snd (fst (SVR_Source_setEncoding fresh "jpeg" t1))) "raw"
      (snd (SVR_Source_setEncoding fresh "jpeg" t1))) as (_ & _ & _ & R).
    destruct (_ =? SVR_SUCCESS); injection N as <- _; [exact J|].
    now rewrite R, J.
  - pose proof (setEncoding_frame s d t) as (_ & _ & _ & J).
    rewrite X in J. simpl in J. now rewrite J.
  - rewrite setFrameProperties_run in X. cbv zeta in X.
    destruct (_ =? SVR_SUCCESS); injection X as _ <- _; [exact IH|exact IH].
  - pose proof (sendFrame_fields fuel s frame t) as (_ & _ & _ & J).
    rewrite X in J. simpl in J. now rewrite J.
Qed.

(** ** The encoder across reconfiguration *)

Lemma setFrameProperties_encoder source p t :
  encoder (snd (fst (SVR_Source_setFrameProperties source p t))) = encoder source.
Proof.
  rewrite setFrameProperties_run. cbv zeta. cbn [fst snd].
  now destruct (_ =? SVR_SUCCESS).
Qed.

Lemma no_construction_with_encoder source frame evs :
  encoder source <> None ->
  Forall (sendFrame_event source frame) evs -> constructed evs = [].
Proof.
  intros X. induction 1 as [|ev evs H _ IH]; [reflexivity|].
  destruct ev as [m b|enc o p|f|c chunk]; simpl in *; auto.
  now destruct H as (_ & _ & H).
Qed.

Lemma sendFrame_constructs fuel source frame t enc p :
  encoder source = None ->
  encoding source = Some enc ->
  frame_properties source = Some p ->
  SVR_Source_sendFrame fuel source frame t =
  SVR_Source_sendFrame fuel
    (set_encoder source (Some (SVR_Encoder_new enc (encoding_options source) p)))
    frame (t ++ [EncoderNew enc (encoding_options source) p]).
Proof.
  intros X E F.
  rewrite (sendFrame_with_properties _ _ _ _ _ _ E F).
  rewrite (sendFrame_with_properties fuel (set_encoder source _) frame _ enc p E F).
  rewrite (sendFrame_encode_run _ _ _ _ _ _ F).
  rewrite (sendFrame_encode_run fuel enc (set_encoder source _) frame _ p F).
  cbv zeta. unfold current_encoder, construction. rewrite X. cbn.
  unfold set_encoder. cbn. now rewrite <- !app_assoc.
Qed.

(** C4, as the code has it: neither [SVR_Source_setEncoding] nor
    [SVR_Source_setFrameProperties] touches the encoder of the source,
    whatever they return.  [SVR_Source_sendFrame] constructs no encoder for
    a source that has one; for a source without one (but with an encoding
    and frame properties) it behaves as on the source that holds the encoder
    constructed from the encoding, the options and the properties. *)
Theorem encoder_survives_reconfiguration source :
  (forall d t,
     encoder (snd (fst (SVR_Source_setEncoding source d t))) = encoder source) /\
  (forall p t,
     encoder (snd (fst (SVR_Source_setFrameProperties source p t))) = encoder source) /\
  (forall fuel frame t, encoder source <> None ->
     constructed (snd (SVR_Source_sendFrame fuel source frame t)) = constructed t) /\
  (forall fuel frame t enc p,
     encoder source = None -> encoding source = Some enc ->
     frame_properties source = Some p ->
     SVR_Source_sendFrame fuel source frame t =
     SVR_Source_sendFrame fuel
       (set_encoder source (Some (SVR_Encoder_new enc (encoding_options source) p)))
       frame (t ++ [EncoderNew enc (encoding_options source) p])).
Proof.
  split; [|split; [|split]].
  - intros d t. apply (setEncoding_frame source d t).
  - apply setFrameProperties_encoder.
  - intros fuel frame t X.
    destruct (sendFrame_trace fuel source frame t) as (evs & -> & H).
    rewrite constructed_app, (no_construction_with_encoder _ _ _ X H).
    now rewrite app_nil_r.
  - intros fuel frame t enc p. apply sendFrame_constructs.
Qed.

(** ** The drain loop of an accepted frame *)

Lemma sendFrame_accepted_run fuel source frame t enc :
  encoding source = Some enc ->
  accepted source frame t ->
  frame_properties (installed source frame) = Some (frame_properties_of frame) /\
  SVR_Source_sendFrame fuel source frame t
    = sendFrame_encode fuel enc (installed source frame) frame
                       (t ++ installation source frame).
Proof.
  intros E [_ A]. unfold installed, installation.
  destruct (frame_properties source) as [p|] eqn:F.
  - rewrite app_nil_r. split; [|now apply sendFrame_with_properties with p].
    rewrite F. destruct p, A as (A1 & A2 & A3 & A4).
    unfold frame_properties_of. simpl in *. congruence.
  - split; [reflexivity|].
    rewrite (sendFrame_install_run _ _ _ _ _ E F). cbv zeta. now rewrite A.
Qed.

Lemma shape_differs_own frame : shape_differs frame (frame_properties_of frame) = false.
Proof. now apply shape_differs_false. Qed.

Lemma installation_quiet source frame :
  pushed_frames (installation source frame) = [] /\
  Forall (fun mb => verb (fst mb) = Some "Source.setFrameProperties"%string /\
                    snd mb = true)
         (sent_messages (installation source frame)).
Proof.
  unfold installation.
  destruct (frame_properties source); split; try easy; repeat constructor.
Qed.

Lemma installed_fields source frame :
  name (installed source frame) = name source /\
  payload_buffer_size (installed source frame) = payload_buffer_size source.
Proof. unfold installed. now destruct (frame_properties source). Qed.

(** C5: for a frame that [SVR_Source_sendFrame] accepts on a source made by
    the library, and an encoder that keeps its promises, the call returns
    success once the fuel covers the pending bytes.  Before the frame is
    pushed only the installation request (if any) is sent; after the push
    comes the drain loop: while the encoder has data ready, a read of at
    most 4096 bytes, the payload-buffer size, sent as a message with the
    components [Data] and the source name, no response expected.  When the
    call returns, the encoder has nothing ready. *)
Theorem sendFrame_drains `{!EncoderLaws} source frame t :
  Reachable source ->
  accepted source frame t ->
  exists fuel0 pre e evs e' s',
    (forall fuel, (fuel0 <= fuel)%nat ->
       SVR_Source_sendFrame fuel source frame t
       = (Returned SVR_SUCCESS, s', t ++ pre ++ Encode frame :: evs)) /\
    pushed_frames pre = [] /\
    Forall (fun mb => verb (fst mb) = Some "Source.setFrameProperties"%string /\
                      snd mb = true) (sent_messages pre) /\
    Drains (name source) 4096 (SVR_Encoder_encode e frame) evs e' /\
    Forall (data_chunk (name source) 4096) evs /\
    encoder s' = Some e' /\
    SVR_Encoder_dataReady e' <= 0.
Proof.
  intros R A. apply Reachable_payload_buffer_size in R.
  destruct (proj1 A) as [enc E].
  set (source0 := installed source frame).
  set (p := frame_properties_of frame).
  set (e := current_encoder enc source0 p).
  destruct (installed_fields source frame) as [N B]. fold source0 in N, B.
  rewrite R in B.
  assert (Hpos : 0 < 4096) by lia. assert (Hnn : 0 <= 4096) by lia.
  destruct (Drains_terminates (name source) 4096 Hpos (SVR_Encoder_encode e frame))
    as (evs & e' & Dr & Len).
  destruct (Drains_chunks _ _ _ _ _ Hnn Dr) as [Ch Z0].
  destruct (installation_quiet source frame) as [I1 I2].
  destruct (construction_quiet enc source0 p) as [C1 C2].
  exists (Z.to_nat (SVR_Encoder_dataReady (SVR_Encoder_encode e frame))),
    (installation source frame ++ construction enc source0 p), e, evs, e',
    (set_encoder source0 (Some e')).
  split; [|split; [|split; [|split; [|split; [|split]]]]]; auto.
  - intros fuel Hf.
    destruct (sendFrame_accepted_run fuel source frame t enc E A) as [F ->].
    fold source0 p in F |- *.
    rewrite (sendFrame_encode_run _ _ _ _ _ _ F). cbv zeta.
    unfold p at 1. rewrite shape_differs_own. fold p e. rewrite N, B.
    rewrite (drain_complete _ _ _ _ _ Dr fuel) by lia. cbn [fst snd].
    now rewrite <- !app_assoc.
  - now rewrite pushed_frames_app, I1, C1.
  - now rewrite sent_messages_app, C2, app_nil_r.
Qed.

(** ** The requests on the wire *)

Lemma setEncoding_trace source d t :
  snd (SVR_Source_setEncoding source d t) = t \/
  snd (SVR_Source_setEncoding source d t)
    = t ++ [Sent (mkMessage ["Source.setEncoding"%string; name source; d] []) true].
Proof.
  destruct (SVR_parseOptionString d) as [options|] eqn:E1.
  - destruct (SVR_Encoding_getByName (options !! "%name"%string)) as [enc|] eqn:E2.
    + right. now rewrite (setEncoding_asks_peer _ _ _ _ _ E1 E2).
    + left. now rewrite (setEncoding_no_such_encoding _ _ _ _ E1 E2).
  - left. now rewrite (setEncoding_parse_error _ _ _ E1).
Qed.

Lemma Source_new_trace nm t :
  exists evs,
    snd (SVR_Source_new nm t)
      = t ++ Sent (mkMessage ["Source.open"; "client"; nm]%string []) true :: evs /\
    Forall (fun ev => exists d,
              ev = Sent (mkMessage ["Source.setEncoding"%string; nm; d] []) true) evs.
Proof.
  rewrite Source_new_run. cbv zeta.
  set (t1 := t ++ [Sent _ true]).
  set (fresh := mkSource nm None None None None 4096).
  destruct (_ =? SVR_SUCCESS); cbn [snd];
    [|exists []; split; [reflexivity|constructor]].
  pose proof (setEncoding_trace fresh "jpeg" t1) as J.
  pose proof (setEncoding_frame fresh "jpeg" t1) as (N & _).
  set (jpeg := SVR_Source_setEncoding fresh "jpeg" t1) in *.
  pose proof (setEncoding_trace (snd (fst jpeg)) "raw" (snd jpeg)) as R.
  rewrite N in R. cbn [name fresh] in J, R.
  set (sj := Sent (mkMessage ["Source.setEncoding"%string; nm; "jpeg"%string] []) true) in *.
  set (sr := Sent (mkMessage ["Source.setEncoding"%string; nm; "raw"%string] []) true) in *.
  assert (Fj : exists d, sj = Sent (mkMessage ["Source.setEncoding"%string; nm; d] []) true)
    by now exists "jpeg"%string.
  assert (Fr : exists d, sr = Sent (mkMessage ["Source.setEncoding"%string; nm; d] []) true)
    by now exists "raw"%string.
  destruct (_ =? SVR_SUCCESS); cbn [snd].
  - destruct J as [-> | ->]; [exists []|exists [sj]];
      (split; [unfold t1; now rewrite <- ?app_assoc|]); repeat constructor; auto.
  - destruct R as [-> | ->], J as [-> | ->];
      [exists []|exists [sj]|exists [sr]|exists [sj; sr]];
      (split; [unfold t1; now rewrite <- ?app_assoc|]); repeat constructor; auto.
Qed.

(** C7, as the code has it: the components after the verb of every request
    the library sends.  A [Source.open] request carries the kind ("client"
    or "server") first and the source name second, followed for a server
    source by the descriptor; the other requests carry the source name, then
    the descriptor or the frame-properties string if there is one; a [Data]
    message carries the source name. *)
Theorem verb_argument_order :
  (forall nm t, exists evs,
     snd (SVR_Source_new nm t)
       = t ++ Sent (mkMessage ["Source.open"; "client"; nm]%string []) true :: evs /\
     Forall (fun ev => exists d,
               ev = Sent (mkMessage ["Source.setEncoding"%string; nm; d] []) true) evs) /\
  (forall nm d t,
     snd (SVR_openServerSource nm d t)
       = t ++ [Sent (mkMessage ["Source.open"; "server"; nm; d]%string []) true]) /\
  (forall source t,
     snd (SVR_Source_destroy source t)
       = t ++ [Sent (mkMessage ["Source.close"%string; name source] []) true]) /\
  (forall nm t,
     snd (SVR_closeServerSource nm t)
       = t ++ [Sent (mkMessage ["Source.close"%string; nm] []) true]) /\
  (forall source d t,
     snd (SVR_Source_setEncoding source d t) = t \/
     snd (SVR_Source_setEncoding source d t)
       = t ++ [Sent (mkMessage ["Source.setEncoding"%string; name source; d] []) true]) /\
  (forall source p t,
     snd (SVR_Source_setFrameProperties source p t)
       = t ++ [Sent (mkMessage ["Source.setFrameProperties"%string; name source;
                                frame_properties_string p] []) true]) /\
  (forall t,
     snd (SVR_getSourcesList t)
       = t ++ [Sent (mkMessage ["Source.getSourcesList"%string] []) true]) /\
  (forall fuel source frame t, exists evs,
     snd (SVR_Source_sendFrame fuel source frame t) = t ++ evs /\
     Forall (fun mb =>
               components (fst mb)
                 = ["Source.setFrameProperties"%string; name source;
                    frame_properties_string (frame_properties_of frame)] \/
               components (fst mb) = ["Data"%string; name source])
            (sent_messages evs)).
Proof.
  split; [exact Source_new_trace|].
  split; [reflexivity|]. split; [reflexivity|]. split; [reflexivity|].
  split; [exact setEncoding_trace|].
  split; [intros source p t; now rewrite setFrameProperties_run|].
  split; [reflexivity|].
  intros fuel source frame t.
  destruct (sendFrame_trace fuel source frame t) as (evs & -> & H).
  exists evs. split; [reflexivity|].
  induction H as [|ev evs H _ IH]; [constructor|].
  destruct ev as [m b|enc o p|f|c chunk]; simpl; auto.
  constructor; [|exact IH]. simpl.
  destruct H as [(-> & _)|(H & _)]; auto.
Qed.

(** * Further properties of the source API *)

(** ** Setting the encoding and the frame properties *)

Lemma setEncoding_state source d t :
  snd (fst (SVR_Source_setEncoding source d t)) = source \/
  exists enc options,
    snd (fst (SVR_Source_setEncoding source d t))
      = set_encoding_fields source enc options.
Proof.
  destruct (SVR_parseOptionString d) as [options|] eqn:E1.
  - destruct (SVR_Encoding_getByName (options !! "%name"%string)) as [enc|] eqn:E2.
    + rewrite (setEncoding_asks_peer _ _ _ _ _ E1 E2). cbn [fst snd].
      destruct (_ =? SVR_SUCCESS); [right; now exists enc, options|now left].
    + left. now rewrite (setEncoding_no_such_encoding _ _ _ _ E1 E2).
  - left. now rewrite (setEncoding_parse_error _ _ _ E1).
Qed.

(** X1: [SVR_Source_setEncoding] validates the descriptor before it talks
    to the peer.  A descriptor that does not parse or names no registered
    encoding sends nothing, leaves the source alone and returns one of the
    two local error codes; a descriptor that names an encoding sends exactly
    one [Source.setEncoding] request and returns whatever status the peer
    answers. *)
Theorem setEncoding_asks_only_when_valid source d t :
  (encoding_named d = None ->
   snd (SVR_Source_setEncoding source d t) = t /\
   snd (fst (SVR_Source_setEncoding source d t)) = source /\
   (fst (fst (SVR_Source_setEncoding source d t)) = SVR_PARSEERROR \/
    fst (fst (SVR_Source_setEncoding source d t)) = SVR_NOSUCHENCODING)) /\
  (encoding_named d <> None ->
   let m := mkMessage ["Source.setEncoding"%string; name source; d] [] in
   snd (SVR_Source_setEncoding source d t) = t ++ [Sent m true] /\
   fst (fst (SVR_Source_setEncoding source d t))
     = SVR_Comm_parseResponse (Some (peer t m))).
Proof.
  unfold encoding_named.
  destruct (SVR_parseOptionString d) as [options|] eqn:E1.
  - destruct (SVR_Encoding_getByName (options !! "%name"%string)) as [enc|] eqn:E2.
    + rewrite (setEncoding_asks_peer _ _ _ _ _ E1 E2). cbn [fst snd].
      split; [discriminate|]. intros _. now split.
    + rewrite (setEncoding_no_such_encoding _ _ _ _ E1 E2). cbn [fst snd].
      split; [auto|]. now intros [].
  - rewrite (setEncoding_parse_error _ _ _ E1). cbn [fst snd].
    split; [auto|]. now intros [].
Qed.

(** X2: when the two local error codes differ from [SVR_SUCCESS], a
    successful [SVR_Source_setEncoding] means what it says: the descriptor
    parsed, it names a registered encoding, the peer answered success, and
    the source now holds that encoding with the parsed options, whatever it
    held before. *)
Theorem setEncoding_success_installs source d t :
  SVR_PARSEERROR <> SVR_SUCCESS ->
  SVR_NOSUCHENCODING <> SVR_SUCCESS ->
  fst (fst (SVR_Source_setEncoding source d t)) = SVR_SUCCESS ->
  exists enc options,
    SVR_parseOptionString d = Some options /\
    SVR_Encoding_getByName (options !! "%name"%string) = Some enc /\
    SVR_Comm_parseResponse
      (Some (peer t (mkMessage ["Source.setEncoding"%string; name source; d] [])))
      = SVR_SUCCESS /\
    encoding (snd (fst (SVR_Source_setEncoding source d t))) = Some enc /\
    encoding_options (snd (fst (SVR_Source_setEncoding source d t))) = Some options.
Proof.
  intros P N.
  destruct (SVR_parseOptionString d) as [options|] eqn:E1.
  - destruct (SVR_Encoding_getByName (options !! "%name"%string)) as [enc|] eqn:E2.
    + rewrite (setEncoding_asks_peer _ _ _ _ _ E1 E2). cbn [fst snd].
      intros Hrc. exists enc, options. rewrite Hrc. now repeat split.
    + now rewrite (setEncoding_no_such_encoding _ _ _ _ E1 E2).
  - now rewrite (setEncoding_parse_error _ _ _ E1).
Qed.


Lemma read_frame_properties_string p :
  read_frame_properties (frame_properties_string p) = Some p.
Proof.
  unfold read_frame_properties. rewrite frame_properties_string_fields. simpl.
  rewrite !read_decimal_fmt_d. now destruct p.
Qed.

(** X4: the frame-properties component determines the properties: frame
    properties that differ in width, height, depth or channels are never
    sent as the same string. *)
Theorem frame_properties_string_injective p q :
  p <> q -> frame_properties_string p <> frame_properties_string q.
Proof.
  intros N E. apply N. pose proof (read_frame_properties_string p) as Hp.
  rewrite E, read_frame_properties_string in Hp. congruence.
Qed.

(** ** The trace of a call of [SVR_Source_sendFrame] *)

Lemma construction_preparation enc source source' frame p :
  Forall (preparation source' frame) (construction enc source p).
Proof. unfold construction. destruct (encoder source); repeat constructor. Qed.

Lemma sendFrame_trace_split fuel source frame t :
  exists pre post,
    snd (SVR_Source_sendFrame fuel source frame t) = t ++ pre ++ post /\
    Forall (preparation source frame) pre /\
    (post = [] \/
     exists e, post = Encode frame
                 :: snd (drain fuel (name source) (payload_buffer_size source) e [])).
Proof.
  destruct (encoding source) as [enc|] eqn:E.
  - destruct (frame_properties source) as [p|] eqn:F.
    + rewrite (sendFrame_with_properties _ _ _ _ _ _ E F).
      rewrite (sendFrame_encode_run _ _ _ _ _ _ F). cbv zeta.
      destruct (shape_differs frame p); cbn [snd].
      * exists (construction enc source p), []. rewrite app_nil_r.
        split; [reflexivity|]. split; [apply construction_preparation|now left].
      * eexists (construction enc source p), _.
        split; [reflexivity|]. split; [apply construction_preparation|].
        right. eexists. reflexivity.
    + rewrite (sendFrame_install_run _ _ _ _ _ E F). cbv zeta.
      destruct (_ =? SVR_SUCCESS).
      * rewrite (sendFrame_encode_run fuel enc
          (set_frame_properties source (frame_properties_of frame)) frame _
          (frame_properties_of frame) eq_refl).
        cbv zeta. rewrite shape_differs_own. cbn [snd].
        eexists (Sent (install_request source frame) true :: construction enc
                   (set_frame_properties source (frame_properties_of frame))
                   (frame_properties_of frame)), _.
        split; [rewrite <- !app_assoc; reflexivity|].
        split; [constructor; [easy|apply construction_preparation]|].
        right. eexists. reflexivity.
      * exists [Sent (install_request source frame) true], [].
        split; [now rewrite app_nil_r|]. split; [repeat constructor|now left].
  - rewrite (sendFrame_no_encoding_run _ _ _ _ E).
    exists [], []. split; [now rewrite app_nil_r|]. split; [constructor|now left].
Qed.

Lemma preparation_quiet source frame pre :
  Forall (preparation source frame) pre ->
  pushed_frames pre = [] /\ data_payloads pre = [] /\ read_chunks pre = [].
Proof.
  induction 1 as [|ev pre H _ (IH1 & IH2 & IH3)]; [easy|].
  destruct ev as [m b|enc o p|f|c chunk]; simpl in *; try easy.
  destruct H as [-> _]. now simpl.
Qed.

Lemma drain_step fuel nm cap e chunk e' :
  SVR_Encoder_dataReady e > 0 ->
  SVR_Encoder_readData e cap = (chunk, e') ->
  drain (S fuel) nm cap e []
  = (fst (drain fuel nm cap e' []),
     ReadData cap chunk :: Sent (mkMessage ["Data"%string; nm] chunk) false
       :: snd (drain fuel nm cap e' [])).
Proof.
  intros G R. simpl. destruct (Z.gtb_spec (SVR_Encoder_dataReady e) 0); [|lia].
  rewrite R. run. now rewrite drain_trace.
Qed.

Lemma drain_stop fuel nm cap e :
  SVR_Encoder_dataReady e <= 0 -> drain fuel nm cap e [] = (true, e, []).
Proof.
  intros L. destruct fuel; simpl;
    destruct (Z.gtb_spec (SVR_Encoder_dataReady e) 0); try lia; reflexivity.
Qed.

Lemma drain_forwards fuel nm cap e :
  data_payloads (snd (drain fuel nm cap e []))
  = read_chunks (snd (drain fuel nm cap e [])).
Proof.
  revert e. induction fuel as [|fuel IH]; intros e.
  - simpl. now destruct (_ >? 0).
  - destruct (Z_le_gt_dec (SVR_Encoder_dataReady e) 0) as [L|G].
    + now rewrite (drain_stop _ _ _ _ L).
    + destruct (SVR_Encoder_readData e cap) as [chunk e'] eqn:R.
      rewrite (drain_step _ _ _ _ _ _ G R). cbn [snd].
      simpl. now rewrite IH.
Qed.

(** X5: a call of [SVR_Source_sendFrame] pushes at most one frame, the one
    it was given, and sends [Data] only after that push.  What it emits
    before (the installation request, the construction of the encoder)
    contains neither a push nor a [Data] message; what it emits after is
    the drain loop and nothing else. *)
Theorem sendFrame_pushes_at_most_once fuel source frame t :
  exists pre post,
    snd (SVR_Source_sendFrame fuel source frame t) = t ++ pre ++ post /\
    pushed_frames pre = [] /\ data_payloads pre = [] /\
    (post = [] \/
     exists evs, post = Encode frame :: evs /\
       Forall (data_event (name source) (payload_buffer_size source)) evs).
Proof.
  destruct (sendFrame_trace_split fuel source frame t) as (pre & post & T & P & D).
  destruct (preparation_quiet _ _ _ P) as (P1 & P2 & _).
  exists pre, post. repeat split; auto.
  destruct D as [->|[e ->]]; [now left|right].
  eexists. split; [reflexivity|apply drain_events].
Qed.

(** X6: everything [SVR_Source_sendFrame] reads from the encoder is
    forwarded and nothing else is: the payloads of the [Data] messages of a
    call are exactly the chunks it read, in the order it read them, also
    when the call is cut short. *)
Theorem sendFrame_forwards_what_it_reads fuel source frame t :
  exists evs,
    snd (SVR_Source_sendFrame fuel source frame t) = t ++ evs /\
    data_payloads evs = read_chunks evs.
Proof.
  destruct (sendFrame_trace_split fuel source frame t) as (pre & post & T & P & D).
  destruct (preparation_quiet _ _ _ P) as (_ & P2 & P3).
  exists (pre ++ post). split; [exact T|].
  unfold data_payloads, read_chunks in *. rewrite !omap_app, P2, P3.
  destruct D as [->|[e ->]]; [reflexivity|].
  simpl. apply drain_forwards.
Qed.

(** ** The source after a call of [SVR_Source_sendFrame] *)

Lemma sendFrame_state fuel source frame t :
  snd (fst (SVR_Source_sendFrame fuel source frame t)) = source \/
  (encoding source <> None /\
   exists e, snd (fst (SVR_Source_sendFrame fuel source frame t))
             = set_encoder (installed source frame) (Some e)).
Proof.
  unfold installed. destruct (encoding source) as [enc|] eqn:E.
  - destruct (frame_properties source) as [p|] eqn:F.
    + rewrite (sendFrame_with_properties _ _ _ _ _ _ E F).
      rewrite (sendFrame_encode_run _ _ _ _ _ _ F). cbv zeta.
      right. split; [easy|].
      destruct (shape_differs frame p); eexists; reflexivity.
    + rewrite (sendFrame_install_run _ _ _ _ _ E F). cbv zeta.
      destruct (_ =? SVR_SUCCESS); [|now left].
      rewrite (sendFrame_encode_run fuel enc
        (set_frame_properties source (frame_properties_of frame)) frame _
        (frame_properties_of frame) eq_refl).
      cbv zeta. right. split; [easy|].
      destruct (shape_differs frame _); eexists; reflexivity.
  - left. now rewrite (sendFrame_no_encoding_run _ _ _ _ E).
Qed.

(** X7: what [SVR_Source_sendFrame] leaves alone.  It never changes the
    name, the encoding, its options or the buffer size; installed frame
    properties stay as they are, and missing ones stay missing or become
    the ones read off the frame; an encoder is never taken away. *)
Theorem sendFrame_footprint fuel source frame t :
  let s' := snd (fst (SVR_Source_sendFrame fuel source frame t)) in
  name s' = name source /\ encoding s' = encoding source /\
  encoding_options s' = encoding_options source /\
  payload_buffer_size s' = payload_buffer_size source /\
  (forall p, frame_properties source = Some p -> frame_properties s' = Some p) /\
  (frame_properties source = None ->
   frame_properties s' = None \/
   frame_properties s' = Some (mkFrameProperties (Ipl.width frame) (Ipl.height frame)
                                                 (Ipl.depth frame) (Ipl.nChannels frame))) /\
  (encoder source <> None -> encoder s' <> None).
Proof.
  cbv zeta.
  destruct (sendFrame_fields fuel source frame t) as (F1 & F2 & F3 & F4).
  repeat (split; [assumption|]).
  destruct (sendFrame_state fuel source frame t) as [->|[_ [e ->]]].
  - repeat split; auto.
  - unfold installed. repeat split.
    + intros p F. now rewrite F.
    + intros F. rewrite F. now right.
    + easy.
Qed.

(** ** What holds of every source the library produces *)

Lemma setEncoding_keeps_coupling source d t :
  ((encoding source = None <-> encoding_options source = None) /\
   (encoder source <> None -> encoding source <> None /\ frame_properties source <> None)) ->
  let s' := snd (fst (SVR_Source_setEncoding source d t)) in
  (encoding s' = None <-> encoding_options s' = None) /\
  (encoder s' <> None -> encoding s' <> None /\ frame_properties s' <> None).
Proof.
  intros [I2 I3]. cbv zeta.
  destruct (setEncoding_state source d t) as [->|(enc & options & ->)]; [easy|].
  unfold set_encoding_fields. cbn. split; [easy|].
  intros X. split; [easy|]. now apply I3.
Qed.

(** X8: every source the library produces, through any sequence of calls
    of [SVR_Source_new], [SVR_Source_setEncoding],
    [SVR_Source_setFrameProperties] and [SVR_Source_sendFrame], has a payload
    buffer of 4096 bytes, has its encoding and its encoding options set
    together or not at all, and holds an encoder only when it also has an
    encoding and frame properties. *)
Theorem Reachable_invariant source :
  Reachable source -> source_invariant source.
Proof.
  intros R. split; [now apply Reachable_payload_buffer_size|].
  induction R as [nm t s t' N|s d t rc s' t' _ IH X|s p t rc s' t' _ IH X
                 |s fuel frame t o s' t' _ IH X].
  - rewrite Source_new_run in N. cbv zeta in N.
    destruct (_ =? SVR_SUCCESS); [|discriminate].
    set (fresh := mkSource nm None None None None 4096) in *.
    set (t1 := t ++ _) in *.
    assert (J : (encoding fresh = None <-> encoding_options fresh = None) /\
                (encoder fresh <> None ->
                 encoding fresh <> None /\ frame_properties fresh <> None)) by easy.
    pose proof (setEncoding_keeps_coupling fresh "jpeg" t1 J) as J1. cbv zeta in J1.
    pose proof (setEncoding_keeps_coupling _ "raw"
                  (snd (SVR_Source_setEncoding fresh "jpeg" t1)) J1) as J2.
    cbv zeta in J2.
    destruct (_ =? SVR_SUCCESS); injection N as <- _; assumption.
  - pose proof (setEncoding_keeps_coupling s d t IH) as J. cbv zeta in J.
    now rewrite X in J.
  - rewrite setFrameProperties_run in X. cbv zeta in X.
    destruct (_ =? SVR_SUCCESS); injection X as _ <- _; [|exact IH].
    destruct IH as [I2 I3]. unfold set_frame_properties. cbn. split; [exact I2|].
    intros E. split; [now apply I3|easy].
  - pose proof (sendFrame_fields fuel s frame t) as (_ & F2 & F3 & _).
    pose proof (sendFrame_state fuel s frame t) as S.
    rewrite X in F2, F3, S. cbn [fst snd] in F2, F3, S.
    destruct IH as [I2 I3].
    split; [now rewrite F2, F3|].
    destruct S as [->|[E [e ->]]]; [exact I3|].
    intros _. cbn. unfold installed.
    destruct (frame_properties s) eqn:F; cbn; [rewrite F|]; easy.
Qed.

(** ** Frames and the drain loop at the edges *)

Lemma Drains_final nm cap e evs e' :
  Drains nm cap e evs e' -> SVR_Encoder_dataReady e' <= 0.
Proof. induction 1; assumption. Qed.

Lemma drain_pushes_nothing fuel nm cap e :
  pushed_frames (snd (drain fuel nm cap e [])) = [].
Proof.
  pose proof (drain_events fuel nm cap e) as Ev.
  induction Ev as [|ev evs H _ IH]; [reflexivity|].
  destruct ev; simpl in *; easy.
Qed.

(** X9: when nothing is ready after the push, [SVR_Source_sendFrame]
    returns success at once, with any fuel: the frame went into the encoder
    and not a single [Data] message is sent. *)
Theorem sendFrame_nothing_ready fuel source frame t enc p e :
  encoding source = Some enc ->
  frame_properties source = Some p ->
  encoder source = Some e ->
  Ipl.width frame = width p /\ Ipl.height frame = height p /\
  Ipl.depth frame = depth p /\ Ipl.nChannels frame = channels p ->
  SVR_Encoder_dataReady (SVR_Encoder_encode e frame) <= 0 ->
  SVR_Source_sendFrame fuel source frame t
  = (Returned SVR_SUCCESS, set_encoder source (Some (SVR_Encoder_encode e frame)),
     t ++ [Encode frame]).
Proof.
  intros E F X S L. apply shape_differs_false in S.
  rewrite (sendFrame_with_properties _ _ _ _ _ _ E F).
  rewrite (sendFrame_encode_run _ _ _ _ _ _ F). cbv zeta. rewrite S.
  unfold current_encoder, construction. rewrite X.
  now rewrite (drain_stop _ _ _ _ L).
Qed.

Lemma drain_stalled (stalled : SVR_Encoder -> Prop) nm cap :
  (forall e, stalled e ->
     SVR_Encoder_dataReady e > 0 /\ stalled (snd (SVR_Encoder_readData e cap))) ->
  forall fuel e, stalled e ->
    fst (fst (drain fuel nm cap e [])) = false /\
    length (data_payloads (snd (drain fuel nm cap e []))) = fuel.
Proof.
  intros H. induction fuel as [|fuel IH]; intros e St.
  - destruct (H e St) as [G _]. simpl.
    destruct (Z.gtb_spec (SVR_Encoder_dataReady e) 0); [easy|lia].
  - destruct (H e St) as [G St'].
    destruct (SVR_Encoder_readData e cap) as [chunk e'] eqn:R.
    rewrite (drain_step _ _ _ _ _ _ G R). cbn [fst snd] in *.
    destruct (IH e' St') as [I1 I2]. split; [exact I1|].
    simpl. now rewrite I2.
Qed.

(** X10: the drain loop has no exit but an encoder with nothing ready.  If
    the encoder, from the push on, keeps reporting data ready after every
    read, a call on an accepted frame is still running after any number of
    rounds, and has sent one [Data] message per round. *)
Theorem sendFrame_stalled_encoder (stalled : SVR_Encoder -> Prop)
    fuel source frame t enc p e :
  encoding source = Some enc ->
  frame_properties source = Some p ->
  encoder source = Some e ->
  Ipl.width frame = width p /\ Ipl.height frame = height p /\
  Ipl.depth frame = depth p /\ Ipl.nChannels frame = channels p ->
  (forall e', stalled e' ->
     SVR_Encoder_dataReady e' > 0 /\
     stalled (snd (SVR_Encoder_readData e' (payload_buffer_size source)))) ->
  stalled (SVR_Encoder_encode e frame) ->
  fst (fst (SVR_Source_sendFrame fuel source frame t)) = Running /\
  exists evs,
    snd (SVR_Source_sendFrame fuel source frame t) = t ++ Encode frame :: evs /\
    length (data_payloads evs) = fuel.
Proof.
  intros E F X S H St. apply shape_differs_false in S.
  rewrite (sendFrame_with_properties _ _ _ _ _ _ E F).
  rewrite (sendFrame_encode_run _ _ _ _ _ _ F). cbv zeta. rewrite S.
  unfold current_encoder, construction. rewrite X. cbn [fst snd app].
  destruct (drain_stalled stalled (name source) _ H fuel _ St) as [D1 D2].
  rewrite D1. split; [reflexivity|]. eexists. split; [reflexivity|exact D2].
Qed.

(** X11: for any encoder, well behaved or not: when a call of
    [SVR_Source_sendFrame] on an accepted frame returns, it returns success,
    the frame was pushed, and the encoder it leaves on the source has
    nothing ready. *)
Theorem sendFrame_returns_drained fuel source frame t rc s' t' :
  accepted source frame t ->
  SVR_Source_sendFrame fuel source frame t = (Returned rc, s', t') ->
  rc = SVR_SUCCESS /\
  pushed_frames t' = pushed_frames t ++ [frame] /\
  exists e', encoder s' = Some e' /\ SVR_Encoder_dataReady e' <= 0.
Proof.
  intros A. destruct (proj1 A) as [enc E].
  destruct (sendFrame_accepted_run fuel source frame t enc E A) as [F ->].
  rewrite (sendFrame_encode_run _ _ _ _ _ _ F). cbv zeta.
  rewrite shape_differs_own.
  set (e := SVR_Encoder_encode _ frame).
  destruct (drain fuel _ _ e []) as [[b e'] evs] eqn:D. cbn [fst snd].
  destruct b; [|discriminate]. intros [= <- <- <-].
  split; [reflexivity|]. split.
  - pose proof (drain_pushes_nothing fuel (name (installed source frame))
                  (payload_buffer_size (installed source frame)) e) as Q.
    rewrite D in Q. cbn [snd] in Q.
    destruct (installation_quiet source frame) as [I _].
    destruct (construction_quiet enc (installed source frame)
                (frame_properties_of frame)) as [C _].
    rewrite !pushed_frames_app, I, C. simpl. now rewrite Q, app_nil_r.
  - exists e'. split; [reflexivity|].
    apply drain_sound in D. now apply Drains_final in D.
Qed.


(** X13: the encoder is constructed before the shape of the frame is
    checked.  On a source with an encoding and frame properties but no
    encoder, a frame of another shape is turned down with
    [SVR_INVALIDARGUMENT], and still the source comes back holding the
    encoder constructed from the encoding, the options and the properties. *)
Theorem rejected_frame_constructs_encoder fuel source frame t enc p :
  encoding source = Some enc ->
  frame_properties source = Some p ->
  encoder source = None ->
  Ipl.width frame <> width p \/ Ipl.height frame <> height p \/
  Ipl.depth frame <> depth p \/ Ipl.nChannels frame <> channels p ->
  SVR_Source_sendFrame fuel source frame t
  = (Returned SVR_INVALIDARGUMENT,
     set_encoder source (Some (SVR_Encoder_new enc (encoding_options source) p)),
     t ++ [EncoderNew enc (encoding_options source) p]).
Proof.
  intros E F X S. apply shape_differs_true in S.
  rewrite (sendFrame_with_properties _ _ _ _ _ _ E F).
  rewrite (sendFrame_encode_run _ _ _ _ _ _ F). cbv zeta. rewrite S.
  unfold current_encoder, construction. now rewrite X.
Qed.

Lemma drain_messages_bounded `{!EncoderLaws} nm cap :
  0 < cap ->
  forall fuel e,
    (length (data_payloads (snd (drain fuel nm cap e [])))
     <= Z.to_nat (SVR_Encoder_dataReady e))%nat.
Proof.
  intros Hcap. induction fuel as [|fuel IH]; intros e.
  - simpl. destruct (_ >? 0); simpl; lia.
  - destruct (Z_le_gt_dec (SVR_Encoder_dataReady e) 0) as [L|G].
    + rewrite (drain_stop _ _ _ _ L). simpl. lia.
    + destruct (SVR_Encoder_readData e cap) as [chunk e'] eqn:R.
      rewrite (drain_step _ _ _ _ _ _ G R). cbn [snd].
      pose proof (readData_progress e cap Hcap ltac:(lia)) as P.
      rewrite R in P. cbn [snd] in P.
      specialize (IH e'). simpl. lia.
Qed.

(** X14: with an encoder that keeps its promises, a call of
    [SVR_Source_sendFrame] on a source that has an encoder and a payload
    buffer of positive size sends at most as many [Data] messages as bytes
    are ready after the push, however long it runs. *)
Theorem sendFrame_messages_bounded `{!EncoderLaws} fuel source frame t enc p e :
  encoding source = Some enc ->
  frame_properties source = Some p ->
  encoder source = Some e ->
  0 < payload_buffer_size source ->
  exists evs,
    snd (SVR_Source_sendFrame fuel source frame t) = t ++ evs /\
    (length (data_payloads evs)
     <= Z.to_nat (SVR_Encoder_dataReady (SVR_Encoder_encode e frame)))%nat.
Proof.
  intros E F X Hcap.
  rewrite (sendFrame_with_properties _ _ _ _ _ _ E F).
  rewrite (sendFrame_encode_run _ _ _ _ _ _ F). cbv zeta.
  unfold current_encoder, construction. rewrite X.
  destruct (shape_differs frame p); cbn [snd app].
  - exists []. split; [reflexivity|simpl; lia].
  - eexists. split; [reflexivity|]. simpl.
    now apply drain_messages_bounded.
Qed.

End Properties.

(** * The model at work

    Runs of the model in the concrete world of [Demo]. *)

Import Demo.

#[export] Instance demo_encoder_laws : EncoderLaws (CD := codecs).
Proof.
  split; simpl.
  - intros e cap Hcap. rewrite length_take. lia.
  - intros e cap Hcap He. rewrite length_drop. lia.
Qed.

(** The sources of [Demo] are sources the library produces. *)
Lemma blank_cam_reachable :
  Reachable (CM := comm (refuse "Source.setEncoding")) blank_cam.
Proof.
  apply Reachable_new
    with (nm := "cam"%string) (t := [])
         (t' := [Sent (mkMessage ["Source.open"; "client"; "cam"]%string []) true;
                 Sent (mkMessage ["Source.setEncoding"; "cam"; "jpeg"]%string []) true;
                 Sent (mkMessage ["Source.setEncoding"; "cam"; "raw"]%string []) true]).
  reflexivity.
Qed.

Lemma bare_cam_reachable :
  Reachable (CM := comm (refuse "Source.setEncoding")) bare_cam.
Proof.
  eapply Reachable_setFrameProperties with (s := blank_cam) (p := cam_props) (t := []);
    [apply blank_cam_reachable|reflexivity].
Qed.

Lemma fresh_cam_reachable : Reachable (CM := comm accept_all) fresh_cam.
Proof.
  apply Reachable_new
    with (nm := "cam"%string) (t := [])
         (t' := [Sent (mkMessage ["Source.open"; "client"; "cam"]%string []) true;
                 Sent (mkMessage ["Source.setEncoding"; "cam"; "jpeg"]%string []) true]).
  reflexivity.
Qed.

Lemma live_cam_reachable : Reachable (CM := comm accept_all) live_cam.
Proof.
  eapply Reachable_sendFrame with (s := fresh_cam) (fuel := 2%nat) (frame := frame_640)
                                  (t := []);
    [apply fresh_cam_reachable|vm_compute; reflexivity].
Qed.

(** ** Instances of the theorems *)

Lemma setEncoding_contract_witness :
  fst (fst (SVR_Source_setEncoding (CM := comm accept_all) fresh_cam "jpeg:q" []))
    = SVR_PARSEERROR /\
  fst (fst (SVR_Source_setEncoding (CM := comm accept_all) fresh_cam "ffv1" []))
    = SVR_NOSUCHENCODING /\
  (encoding (snd (fst (SVR_Source_setEncoding (CM := comm accept_all)
                         fresh_cam "raw" []))) = Some RAW /\
   encoding_options (snd (fst (SVR_Source_setEncoding (CM := comm accept_all)
                                 fresh_cam "raw" [])))
     = Some {[ "%name"%string := "raw"%string ]}) /\
  (encoding (snd (fst (SVR_Source_setEncoding (CM := comm (refuse "Source.setEncoding"))
                         fresh_cam "raw" []))) = Some JPEG /\
   encoding_options (snd (fst (SVR_Source_setEncoding
                                 (CM := comm (refuse "Source.setEncoding"))
                                 fresh_cam "raw" []))) = Some jpeg_options).
Proof.
  split; [|split; [|split]].
  - apply (setEncoding_contract (CM := comm accept_all) fresh_cam "jpeg:q" []).
    reflexivity.
  - apply (proj1 (proj2 (setEncoding_contract (CM := comm accept_all)
                           fresh_cam "ffv1" [])))
      with (options := {[ "%name"%string := "ffv1"%string ]}); reflexivity.
  - apply (proj1 (proj2 (proj2 (setEncoding_contract (CM := comm accept_all)
                                  fresh_cam "raw" [])))); reflexivity.
  - apply (proj2 (proj2 (proj2 (setEncoding_contract
             (CM := comm (refuse "Source.setEncoding")) fresh_cam "raw" [])))).
    vm_compute. discriminate.
Defined.

Lemma sendFrame_without_encoding_witness :
  SVR_Source_sendFrame (CM := comm accept_all) 2 blank_cam frame_640 []
  = (Returned SVR_INVALIDSTATE, blank_cam, []).
Proof. apply sendFrame_without_encoding. reflexivity. Defined.

Lemma Source_new_contract_witness :
  SVR_Source_new (CM := comm (refuse "Source.open")) "cam" []
    = (None, [Sent (mkMessage ["Source.open"; "client"; "cam"]%string []) true]) /\
  exists s t',
    SVR_Source_new (CM := comm accept_all) "cam" [] = (Some s, t') /\
    name s = "cam"%string /\ encoder s = None /\ frame_properties s = None /\
    encoding s = Some JPEG.
Proof.
  split.
  - apply (Source_new_contract (CM := comm (refuse "Source.open")) "cam" []).
    vm_compute. discriminate.
  - destruct (proj2 (Source_new_contract (CM := comm accept_all) "cam" []) eq_refl)
      as (s & t' & H1 & H2 & H3 & H4 & H5 & _).
    exists s, t'. repeat split; try assumption.
    now destruct (H5 eq_refl) as (_ & _ & ->).
Defined.

Lemma sendFrame_shape_mismatch_witness :
  exists s' t',
    SVR_Source_sendFrame (CM := comm accept_all) 2 pinned_cam frame_320 []
      = (Returned SVR_INVALIDARGUMENT, s', t') /\
    frame_properties s' = Some cam_props /\
    pushed_frames t' = pushed_frames [] /\
    sent_messages t' = sent_messages [].
Proof.
  apply (sendFrame_shape_mismatch (CM := comm accept_all) 2 pinned_cam frame_320 []
           JPEG cam_props); [reflexivity|reflexivity|].
  left. simpl. lia.
Defined.

Lemma sendFrame_installs_first_witness :
  SVR_Source_sendFrame (CM := comm (refuse "Source.setFrameProperties"))
                       2 fresh_cam frame_640 []
    = (Returned 7, fresh_cam,
       [Sent (mkMessage ["Source.setFrameProperties"; "cam"; "640,480,8,3"]%string [])
             true]) /\
  exists o s' evs,
    SVR_Source_sendFrame (CM := comm accept_all) 2 fresh_cam frame_640 []
      = (o, s',
         [] ++ Sent (mkMessage ["Source.setFrameProperties"; "cam"; "640,480,8,3"]%string
                               []) true :: evs) /\
    frame_properties s' = Some cam_props.
Proof.
  split.
  - apply (sendFrame_installs_first (CM := comm (refuse "Source.setFrameProperties"))
             2 fresh_cam frame_640 [] JPEG eq_refl eq_refl).
    vm_compute. discriminate.
  - apply (sendFrame_installs_first (CM := comm accept_all)
             2 fresh_cam frame_640 [] JPEG eq_refl eq_refl).
    reflexivity.
Defined.

Lemma encoder_survives_reconfiguration_witness :
  constructed (snd (SVR_Source_sendFrame (CM := comm accept_all) 2 live_cam frame_640 []))
    = constructed [] /\
  SVR_Source_sendFrame (CM := comm accept_all) 2 pinned_cam frame_640 []
    = SVR_Source_sendFrame (CM := comm accept_all) 2 live_cam frame_640
        [EncoderNew JPEG (Some jpeg_options) cam_props].
Proof.
  split.
  - apply (encoder_survives_reconfiguration (CM := comm accept_all) live_cam).
    simpl. discriminate.
  - apply (proj2 (proj2 (proj2 (encoder_survives_reconfiguration
             (CM := comm accept_all) pinned_cam)))
             2%nat frame_640 [] JPEG cam_props); reflexivity.
Defined.

Lemma sendFrame_drains_witness :
  exists fuel0 pre e evs e' s',
    (forall fuel, (fuel0 <= fuel)%nat ->
       SVR_Source_sendFrame (CM := comm accept_all) fuel fresh_cam frame_640 []
       = (Returned SVR_SUCCESS, s', [] ++ pre ++ Encode frame_640 :: evs)) /\
    pushed_frames pre = [] /\
    Forall (fun mb => verb (fst mb) = Some "Source.setFrameProperties"%string /\
                      snd mb = true) (sent_messages pre) /\
    Drains "cam" 4096 (SVR_Encoder_encode e frame_640) evs e' /\
    Forall (data_chunk "cam" 4096) evs /\
    encoder s' = Some e' /\
    SVR_Encoder_dataReady e' <= 0.
Proof.
  apply (sendFrame_drains (CM := comm accept_all) fresh_cam frame_640 []).
  - apply fresh_cam_reachable.
  - split; [now exists JPEG|reflexivity].
Defined.

(** ** Where the design document and the code part ways *)

(** Against C1: a source the library produces, with frame properties
    installed but no encoding (the peer refused both [Source.setEncoding]
    requests of [SVR_Source_new]), answers a frame of another shape with
    [SVR_INVALIDSTATE], not with [SVR_INVALIDARGUMENT]. *)
Lemma sendFrame_mismatch_without_encoding :
  Reachable (CM := comm (refuse "Source.setEncoding")) bare_cam /\
  frame_properties bare_cam = Some cam_props /\
  Ipl.width frame_320 <> width cam_props /\
  fst (fst (SVR_Source_sendFrame (CM := comm (refuse "Source.setEncoding"))
              2 bare_cam frame_320 []))
    = Returned SVR_INVALIDSTATE /\
  fst (fst (SVR_Source_sendFrame (CM := comm (refuse "Source.setEncoding"))
              2 bare_cam frame_320 []))
    <> Returned SVR_INVALIDARGUMENT.
Proof.
  split; [apply bare_cam_reachable|].
  repeat split; try reflexivity; vm_compute; discriminate.
Qed.

(** Against C2: on a source the library produces, with neither encoding nor
    frame properties, nothing is derived from the frame and nothing is
    installed, although the peer would accept the installation. *)
Lemma sendFrame_blank_installs_nothing :
  Reachable (CM := comm (refuse "Source.setEncoding")) blank_cam /\
  frame_properties blank_cam = None /\
  SVR_Comm_parseResponse (Comm := comm (refuse "Source.setEncoding"))
    (Some (peer (Comm := comm (refuse "Source.setEncoding")) []
                (install_request blank_cam frame_640)))
    = SVR_SUCCESS /\
  frame_properties
    (snd (fst (SVR_Source_sendFrame (CM := comm (refuse "Source.setEncoding"))
                 2 blank_cam frame_640 [])))
    <> Some (frame_properties_of frame_640) /\
  sent_messages
    (snd (SVR_Source_sendFrame (CM := comm (refuse "Source.setEncoding"))
            2 blank_cam frame_640 [])) = [].
Proof.
  split; [apply blank_cam_reachable|].
  repeat split; try reflexivity; vm_compute; discriminate.
Qed.

(** Against C4: a successful change of the encoding, and a successful change
    of the frame properties to another shape, both leave the encoder in
    place, and the next frame constructs none. *)
Lemma reconfiguration_keeps_encoder :
  Reachable (CM := comm accept_all) live_cam /\
  encoder live_cam <> None /\
  fst (fst (SVR_Source_setEncoding (CM := comm accept_all) live_cam "raw" []))
    = SVR_SUCCESS /\
  encoder (snd (fst (SVR_Source_setEncoding (CM := comm accept_all) live_cam "raw" [])))
    <> None /\
  fst (fst (SVR_Source_setFrameProperties (CM := comm accept_all) live_cam
              (mkFrameProperties 320 240 8 3) [])) = SVR_SUCCESS /\
  encoder (snd (fst (SVR_Source_setFrameProperties (CM := comm accept_all) live_cam
                       (mkFrameProperties 320 240 8 3) []))) <> None /\
  constructed
    (snd (SVR_Source_sendFrame (CM := comm accept_all) 2
            (snd (fst (SVR_Source_setEncoding (CM := comm accept_all) live_cam "raw" [])))
            frame_640 [])) = [].
Proof.
  split; [apply live_cam_reachable|].
  repeat split; try reflexivity; vm_compute; discriminate.
Qed.

(** Against C7: the [Source.open] request of [SVR_Source_new] carries the
    kind before the name. *)
Lemma Source_open_kind_before_name :
  first_sent (snd (SVR_Source_new (CM := comm accept_all) "cam" []))
    = Some (mkMessage ["Source.open"; "client"; "cam"]%string []) /\
  first_sent (snd (SVR_Source_new (CM := comm accept_all) "cam" []))
    <> Some (mkMessage ["Source.open"; "cam"; "client"]%string []).
Proof. split; [reflexivity|vm_compute; discriminate]. Qed.

(** ** Instances of the further properties *)

Lemma setEncoding_asks_only_when_valid_witness :
  (snd (SVR_Source_setEncoding (CM := comm accept_all) live_cam "ffv1" []) = [] /\
   snd (fst (SVR_Source_setEncoding (CM := comm accept_all) live_cam "ffv1" []))
     = live_cam /\
   (fst (fst (SVR_Source_setEncoding (CM := comm accept_all) live_cam "ffv1" []))
      = SVR_PARSEERROR \/
    fst (fst (SVR_Source_setEncoding (CM := comm accept_all) live_cam "ffv1" []))
      = SVR_NOSUCHENCODING)) /\
  (snd (SVR_Source_setEncoding (CM := comm (refuse "Source.setEncoding"))
          live_cam "raw:q=1" [])
     = [] ++ [Sent (mkMessage ["Source.setEncoding"; "cam"; "raw:q=1"]%string []) true] /\
   fst (fst (SVR_Source_setEncoding (CM := comm (refuse "Source.setEncoding"))
               live_cam "raw:q=1" []))
     = SVR_Comm_parseResponse (Comm := comm (refuse "Source.setEncoding"))
         (Some (peer (Comm := comm (refuse "Source.setEncoding")) []
                     (mkMessage ["Source.setEncoding"; "cam"; "raw:q=1"]%string [])))).
Proof.
  split.
  - apply (setEncoding_asks_only_when_valid (CM := comm accept_all) live_cam "ffv1" []).
    reflexivity.
  - apply (setEncoding_asks_only_when_valid (CM := comm (refuse "Source.setEncoding"))
             live_cam "raw:q=1" []).
    vm_compute. discriminate.
Defined.

Lemma setEncoding_success_installs_witness :
  exists enc options,
    SVR_parseOptionString "raw:q=1" = Some options /\
    SVR_Encoding_getByName (options !! "%name"%string) = Some enc /\
    SVR_Comm_parseResponse (Comm := comm accept_all)
      (Some (peer (Comm := comm accept_all) []
                  (mkMessage ["Source.setEncoding"%string; name live_cam;
                              "raw:q=1"%string] [])))
      = SVR_SUCCESS /\
    encoding (snd (fst (SVR_Source_setEncoding (CM := comm accept_all)
                          live_cam "raw:q=1" []))) = Some enc /\
    encoding_options (snd (fst (SVR_Source_setEncoding (CM := comm accept_all)
                                  live_cam "raw:q=1" []))) = Some options.
Proof.
  apply (setEncoding_success_installs (CM := comm accept_all) live_cam "raw:q=1" []).
  - simpl. unfold SVR_SUCCESS. lia.
  - simpl. unfold SVR_SUCCESS. lia.
  - reflexivity.
Defined.


Lemma frame_properties_string_injective_witness :
  frame_properties_string cam_props
  <> frame_properties_string (mkFrameProperties 320 240 8 3).
Proof. apply frame_properties_string_injective. discriminate. Defined.

Lemma sendFrame_footprint_witness :
  frame_properties
    (snd (fst (SVR_Source_sendFrame (CM := comm accept_all) 2 live_cam frame_320 [])))
    = Some cam_props /\
  encoder (snd (fst (SVR_Source_sendFrame (CM := comm accept_all) 2 live_cam
                       frame_320 []))) <> None /\
  (frame_properties
     (snd (fst (SVR_Source_sendFrame (CM := comm accept_all) 2 fresh_cam frame_640 [])))
     = None \/
   frame_properties
     (snd (fst (SVR_Source_sendFrame (CM := comm accept_all) 2 fresh_cam frame_640 [])))
     = Some (mkFrameProperties 640 480 8 3)).
Proof.
  split; [|split].
  - apply (sendFrame_footprint (CM := comm accept_all) 2 live_cam frame_320 []).
    reflexivity.
  - apply (sendFrame_footprint (CM := comm accept_all) 2 live_cam frame_320 []).
    discriminate.
  - apply (sendFrame_footprint (CM := comm accept_all) 2 fresh_cam frame_640 []).
    reflexivity.
Defined.

Lemma Reachable_invariant_witness : source_invariant (CD := codecs) live_cam.
Proof.
  apply (Reachable_invariant (CM := comm accept_all)). apply live_cam_reachable.
Defined.

Lemma sendFrame_nothing_ready_witness :
  SVR_Source_sendFrame (CM := comm accept_all) 0 live_cam empty_frame []
  = (Returned SVR_SUCCESS, live_cam, [] ++ [Encode empty_frame]).
Proof.
  apply (sendFrame_nothing_ready (CM := comm accept_all) 0 live_cam empty_frame []
           JPEG cam_props []);
    [reflexivity|reflexivity|reflexivity|repeat split|simpl; lia].
Defined.

Lemma sendFrame_stalled_encoder_witness :
  fst (fst (SVR_Source_sendFrame (CD := stalled_codecs) (CM := stalled_comm)
              5 stalled_cam frame_640 [])) = Running /\
  exists evs,
    snd (SVR_Source_sendFrame (CD := stalled_codecs) (CM := stalled_comm)
           5 stalled_cam frame_640 []) = [] ++ Encode frame_640 :: evs /\
    length (data_payloads evs) = 5%nat.
Proof.
  apply (sendFrame_stalled_encoder (CD := stalled_codecs) (CM := stalled_comm)
           (fun e => e <> []) 5 stalled_cam frame_640 [] JPEG cam_props []);
    [reflexivity|reflexivity|reflexivity|repeat split| |simpl; discriminate].
  intros e' H. split; [|exact H].
  destruct e'; [now destruct H|simpl; lia].
Defined.

Lemma sendFrame_returns_drained_witness :
  SVR_SUCCESS = SVR_SUCCESS /\
  pushed_frames
    [Encode frame_640; ReadData 4096 ["x"; "y"; "z"]%byte;
     Sent (mkMessage ["Data"; "cam"]%string ["x"; "y"; "z"]%byte) false]
    = pushed_frames [] ++ [frame_640] /\
  exists e', encoder live_cam = Some e' /\ SVR_Encoder_dataReady e' <= 0.
Proof.
  apply (sendFrame_returns_drained (CM := comm accept_all) 2 live_cam frame_640 []
           SVR_SUCCESS live_cam
           [Encode frame_640; ReadData 4096 ["x"; "y"; "z"]%byte;
            Sent (mkMessage ["Data"; "cam"]%string ["x"; "y"; "z"]%byte) false]).
  - split; [now exists JPEG|repeat split].
  - reflexivity.
Defined.


Lemma rejected_frame_constructs_encoder_witness :
  SVR_Source_sendFrame (CM := comm accept_all) 2 pinned_cam frame_320 []
  = (Returned SVR_INVALIDARGUMENT, live_cam,
     [] ++ [EncoderNew JPEG (Some jpeg_options) cam_props]).
Proof.
  apply (rejected_frame_constructs_encoder (CM := comm accept_all) 2 pinned_cam
           frame_320 [] JPEG cam_props);
    [reflexivity|reflexivity|reflexivity|left; simpl; lia].
Defined.

Lemma sendFrame_messages_bounded_witness :
  exists evs,
    snd (SVR_Source_sendFrame (CM := comm accept_all) 9 live_cam frame_640 [])
      = [] ++ evs /\
    (length (data_payloads evs) <= 3)%nat.
Proof.
  apply (sendFrame_messages_bounded (CM := comm accept_all) 9 live_cam frame_640 []
           JPEG cam_props []);
    [reflexivity|reflexivity|reflexivity|simpl; lia].
Defined.
